(** * DutchTestPrep: the practice and profile hooks

    A shallow embedding of [app/hooks/usePractice.ts], [app/hooks/useProfile.ts],
    the profile screen and the configuration module, with the run-time values
    of the JavaScript engine they manipulate (JSON values, IEEE doubles,
    [toFixed], [parseFloat], truthiness), followed by the properties of the
    queue/prefetch heuristic, the difficulty bookkeeping and the
    request/response handling. *)

From Stdlib Require Import ZArith List String Ascii Bool Lia Floats.
Import ListNotations.
Local Open Scope string_scope.
Local Open Scope nat_scope.
Set Warnings "-register-all".

(** ** Run-time values *)

Module Js.

(** A value as the hooks see it: what [JSON.parse] can produce, plus
    [undefined] (the result of reading a property that is not there).
    Numbers are IEEE binary64.  An object is the list of its own properties,
    each key at most once. *)
Inductive JsValue : Type :=
| JUndefined
| JNull
| JBool (b : bool)
| JNum (x : float)
| JStr (s : string)
| JArr (items : list JsValue)
| JObj (fields : list (string * JsValue)).

(** ToBoolean. *)
Definition truthy (v : JsValue) : bool :=
  match v with
  | JUndefined | JNull => false
  | JBool b => b
  | JNum x => negb (is_zero x || is_nan x)
  | JStr s => negb (String.eqb s "")
  | JArr _ | JObj _ => true
  end.

(** [a || b] *)
Definition or_else (a b : JsValue) : JsValue := if truthy a then a else b.

Definition nullish (v : JsValue) : bool :=
  match v with
  | JUndefined | JNull => true
  | _ => false
  end.

Fixpoint assoc (k : string) (fs : list (string * JsValue)) : JsValue :=
  match fs with
  | [] => JUndefined
  | (k', v) :: rest => if String.eqb k k' then v else assoc k rest
  end.

(** [o.k] on a base that is neither [null] nor [undefined].  None of the
    property names the hooks read is a member of the String, Number, Boolean
    or Array prototypes, so on a primitive or an array the read is
    [undefined]. *)
Definition prop (o : JsValue) (k : string) : JsValue :=
  match o with
  | JObj fs => assoc k fs
  | _ => JUndefined
  end.

(** [o?.k] *)
Definition opt_prop (o : JsValue) (k : string) : JsValue :=
  if nullish o then JUndefined else prop o k.

Definition isArray (v : JsValue) : bool :=
  match v with
  | JArr _ => true
  | _ => false
  end.

(** *** Strings *)

(** WhiteSpace and LineTerminator code points, in the UTF-8 encoding of the
    string: TAB, LF, VT, FF, CR, SP, U+00A0, U+1680, U+2000..U+200A, U+2028,
    U+2029, U+202F, U+205F, U+3000, U+FEFF.  [ws_prefix s] is the number of
    bytes of the white-space character [s] starts with, or 0. *)
Definition ws_prefix (s : string) : nat :=
  match s with
  | String c rest =>
      let n := nat_of_ascii c in
      if ((9 <=? n) && (n <=? 13)) || (n =? 32) then 1
      else match rest with
           | String c1 rest1 =>
               let n1 := nat_of_ascii c1 in
               if (n =? 194) && (n1 =? 160) then 2
               else match rest1 with
                    | String c2 _ =>
                        let n2 := nat_of_ascii c2 in
                        if (n =? 225) && (n1 =? 154) && (n2 =? 128) then 3
                        else if (n =? 226) && (n1 =? 128)
                                && (((128 <=? n2) && (n2 <=? 138))
                                    || (n2 =? 168) || (n2 =? 169) || (n2 =? 175)) then 3
                        else if (n =? 226) && (n1 =? 129) && (n2 =? 159) then 3
                        else if (n =? 227) && (n1 =? 128) && (n2 =? 128) then 3
                        else if (n =? 239) && (n1 =? 187) && (n2 =? 191) then 3
                        else 0
                    | EmptyString => 0
                    end
           | EmptyString => 0
           end
  | EmptyString => 0
  end.

Fixpoint drop (n : nat) (s : string) : string :=
  match n, s with
  | S n', String _ rest => drop n' rest
  | _, _ => s
  end.

(** [fuel] bounds the number of white-space characters removed; the length
    of the string is always enough. *)
Fixpoint trimStart_aux (fuel : nat) (s : string) : string :=
  match fuel with
  | O => s
  | S fuel' =>
      match ws_prefix s with
      | O => s
      | n => trimStart_aux fuel' (drop n s)
      end
  end.

Definition trimStart (s : string) : string := trimStart_aux (String.length s) s.

Fixpoint trimEnd (s : string) : string :=
  match s with
  | EmptyString => EmptyString
  | String c rest => if String.eqb (trimStart s) "" then "" else String c (trimEnd rest)
  end.

(** [String.prototype.trim] *)
Definition trim (s : string) : string := trimEnd (trimStart s).

(** *** Numbers *)

Local Open Scope Z_scope.

(** The double nearest to the integer [z] (ties to even). *)
Definition float_of_Z (z : Z) : float :=
  SF2Prim (binary_normalize prec emax z 0 false).

(** The double nearest to [(-1)^neg * p / q] (ties to even), for [p >= 0]. *)
Definition float_of_ratio (neg : bool) (p : Z) (q : positive) : float :=
  match p with
  | Zpos p' => SF2Prim (SFdiv prec emax (S754_finite neg p' 0) (S754_finite false q 0))
  | _ => if neg then neg_zero else zero
  end.

Definition digit_char (d : Z) : ascii := ascii_of_nat (48 + Z.to_nat d).

(** Decimal digits of [n >= 0], most significant first; ["0"] for zero. *)
Fixpoint digits_aux (fuel : nat) (n : Z) (acc : string) : string :=
  match fuel with
  | O => acc
  | S fuel' =>
      let acc' := String (digit_char (n mod 10)) acc in
      if n <? 10 then acc' else digits_aux fuel' (n / 10) acc'
  end.

Definition digits (n : Z) : string := digits_aux (S (Z.to_nat (Z.log2 n))) n "".

Fixpoint zeros (k : nat) : string :=
  match k with
  | O => ""
  | S k' => String "0" (zeros k')
  end.

(** The digits of [n] padded on the left with zeros to at least [w] characters. *)
Definition pad_digits (w : nat) (n : Z) : string :=
  let d := digits n in
  (zeros (w - String.length d) ++ d)%string.

(** Step 8 of [Number.prototype.toFixed]: the decimal form of [n / 10^f]
    with [f] fraction digits. *)
Definition fixed_digits (f : nat) (n : Z) : string :=
  match f with
  | O => digits n
  | _ => digits (n / 10 ^ Z.of_nat f) ++ "." ++ pad_digits f (n mod 10 ^ Z.of_nat f)
  end.

(** The integer [n] for which [n / 10^f] is closest to [m * 2^e]; the larger
    one when two are equally close. *)
Definition nearest_scaled (f : nat) (m : positive) (e : Z) : Z :=
  let k := 10 ^ Z.of_nat f in
  if 0 <=? e then Zpos m * 2 ^ e * k
  else (2 * Zpos m * k + 2 ^ (- e)) / (2 * 2 ^ (- e)).

(** [m * 2^e >= 10^21] *)
Definition at_least_1e21 (m : positive) (e : Z) : bool :=
  if 0 <=? e then 10 ^ 21 <=? Zpos m * 2 ^ e
  else 10 ^ 21 * 2 ^ (- e) <=? Zpos m.

Fixpoint strip_trailing_zeros_rev (l : list ascii) : list ascii :=
  match l with
  | c :: rest => if Ascii.eqb c "0" then strip_trailing_zeros_rev rest else l
  | [] => []
  end.

Definition strip_trailing_zeros (s : string) : string :=
  string_of_list_ascii (rev (strip_trailing_zeros_rev (rev (list_ascii_of_string s)))).

(** Number::toString for an integer value [X >= 10^21] that is the double [x]:
    the shortest digit string that reads back as [x] (the closest to [X] when
    several have that length), in exponent form. *)
Fixpoint shortest_roundtrip (fuel k : nat) (n : Z) (X : Z) (x : float) : Z :=
  match fuel with
  | O => X
  | S fuel' =>
      let step := 10 ^ (n - Z.of_nat k) in
      let lo := X / step * step in
      let hi := lo + step in
      let ok_lo := (float_of_Z lo =? x)%float in
      let ok_hi := (float_of_Z hi =? x)%float in
      if ok_lo && ok_hi then
        (if X - lo <? hi - X then lo
         else if hi - X <? X - lo then hi
         else if Z.even (lo / step) then lo else hi)
      else if ok_lo then lo
      else if ok_hi then hi
      else shortest_roundtrip fuel' (S k) n X x
  end.

Definition toString_large (X : Z) : string :=
  let n := Z.of_nat (String.length (digits X)) in
  let v := shortest_roundtrip 17 1 n X (float_of_Z X) in
  let ds := digits v in
  let e := Z.of_nat (String.length ds) - 1 in
  match ds with
  | String d more =>
      match strip_trailing_zeros more with
      | EmptyString => String d ("e+" ++ digits e)
      | fraction => String d ("." ++ fraction ++ "e+" ++ digits e)
      end
  | EmptyString => "0"
  end.

(** [x.toFixed(f)], for [0 <= f <= 100]. *)
Definition toFixed (f : nat) (x : float) : string :=
  match Prim2SF x with
  | S754_nan => "NaN"
  | S754_infinity s => if s then "-Infinity" else "Infinity"
  | S754_zero _ => fixed_digits f 0
  | S754_finite s m e =>
      (if s then "-" else "") ++
      (if at_least_1e21 m e then toString_large (Zpos m * 2 ^ e)
       else fixed_digits f (nearest_scaled f m e))
  end.

Definition is_digit (c : ascii) : bool :=
  let n := nat_of_ascii c in ((48 <=? n) && (n <=? 57))%nat.

(** Reads the longest run of decimal digits at the start of [s]: the number
    they denote on top of [acc], how many there were, and the rest. *)
Fixpoint read_digits (s : string) (acc : Z) (count : nat) : Z * nat * string :=
  match s with
  | String c rest =>
      if is_digit c
      then read_digits rest (acc * 10 + (Z.of_nat (nat_of_ascii c) - 48)) (S count)
      else (acc, count, s)
  | EmptyString => (acc, count, s)
  end.

Definition read_sign (s : string) : bool * string :=
  match s with
  | String "-" rest => (true, rest)
  | String "+" rest => (false, rest)
  | _ => (false, s)
  end.

(** The ExponentPart at the start of [s], or 0 when there is none. *)
Definition read_exponent (s : string) : Z :=
  match s with
  | String c rest =>
      if (Ascii.eqb c "e" || Ascii.eqb c "E")%bool then
        let '(neg, rest1) := read_sign rest in
        let '(ev, n, _) := read_digits rest1 0 0 in
        match n with
        | O => 0
        | _ => if neg then - ev else ev
        end
      else 0
  | EmptyString => 0
  end.

(** [parseFloat(input)]: the value of the longest prefix of the trimmed
    input that is a StrDecimalLiteral, [NaN] when there is none. *)
Definition parseFloat (input : string) : float :=
  let '(neg, s1) := read_sign (trimStart input) in
  if String.prefix "Infinity" s1 then (if neg then neg_infinity else infinity)
  else
    let '(int_part, ni, s2) := read_digits s1 0 0 in
    let '(mant, nf, s3) :=
      match s2 with
      | String "." rest => read_digits rest int_part 0
      | _ => (int_part, O, s2)
      end in
    match (ni + nf)%nat with
    | O => nan
    | _ =>
        let ex := read_exponent s3 - Z.of_nat nf in
        if 0 <=? ex then float_of_ratio neg (mant * 10 ^ ex) 1
        else float_of_ratio neg mant (Z.to_pos (10 ^ (- ex)))
    end.

(** The text begins with a decimal digit. *)
Definition starts_with_digit (s : string) : Prop :=
  exists c rest, s = String c rest /\ is_digit c = true.

(** The difference of two doubles, [a - b]. *)
Definition minus (a b : float) : float := (a - b)%float.

End Js.

(** ** Configuration ([constants/Config]) *)

Module Config.

(** [process.env.NODE_ENV === 'production'] is the parameter. *)
Definition API_URL (production : bool) : string :=
  if production
  then "https://desirabledifficult-backend.herokuapp.com"
  else "http://localhost:3000".

Definition API_TIMEOUT : Z := 30000.
Definition VERSION : string := "0.1.0".

Module STORAGE_KEYS.
Definition AUTH_TOKEN : string := "desirabledifficult_auth_token".
Definition USER_DATA : string := "desirabledifficult_user_data".
Definition THEME : string := "desirabledifficult_theme".
Definition ACTIVE_NETWORK : string := "desirabledifficult_active_network".
End STORAGE_KEYS.

End Config.

(** ** Effects of an async function *)

Module Effects.
Import Js.

(** What a [catch] clause receives: an instance of [Error] with its
    [message], or any other thrown value. *)
Inductive Thrown : Type :=
| Error (message : string)
| NotAnError (v : JsValue).

(** A settled promise. *)
Inductive Settled (A : Type) : Type :=
| Resolved (a : A)
| Rejected (e : Thrown).
Arguments Resolved {A} a.
Arguments Rejected {A} e.

(** The places where the engine itself raises a [TypeError]. *)
Inductive TypeErrorSite : Type :=
| ReadOfNullish (base : JsValue) (key : string)
| NotAFunction (receiver : JsValue) (method : string).

(** What the hooks take from the engine without fixing it: the text of its
    [TypeError] messages, and the outcome of [a < b] when the operands are
    not both Numbers (string comparison and the ToPrimitive/ToNumber
    coercions). *)
Record Engine : Type := {
  TypeError_message : TypeErrorSite -> string;
  lessThan_coerced : JsValue -> JsValue -> bool
}.

(** [a < b] *)
Definition lessThan (E : Engine) (a b : JsValue) : bool :=
  match a, b with
  | JNum x, JNum y => (x <? y)%float
  | _, _ => lessThan_coerced E a b
  end.

(** [a > b] *)
Definition greaterThan (E : Engine) (a b : JsValue) : bool := lessThan E b a.

(** The world outside the component: the storage wrapper, the secure store
    and the HTTP client, each answering a call with a settled promise.  A
    request resolves with the [data] of the response. *)
Record Env : Type := {
  storage_getItem : string -> Settled (option string);
  SecureStore_getItemAsync : string -> Settled (option string);
  axios_post : string -> JsValue -> string -> Settled JsValue;
  axios_get : string -> string -> Settled JsValue
}.

Inductive TimerCallback : Type :=
| ClearDifficultyChange.

(** Observable actions, in the order they happen.  [Background evs] is a call
    that was started and not awaited, with the actions it performs. *)
Inductive Event : Type :=
| Alert (title message : string)
| ConsoleError (label : string) (e : Thrown)
| StorageGetItem (key : string)
| SecureStoreGetItemAsync (key : string)
| AxiosPost (url : string) (body : JsValue) (authorization : string)
| AxiosGet (url : string) (authorization : string)
| SetTimeout (callback : TimerCallback) (ms : Z)
| Background (events : list Event).

(** How a block of statements ends. *)
Inductive Completion (A : Type) : Type :=
| Normal (a : A)
| Returned
| Threw (e : Thrown).
Arguments Normal {A} a.
Arguments Returned {A}.
Arguments Threw {A} e.

Section Monad.
Context {S : Type}.

(** A block of statements: from the component state and the log so far to
    a completion, the state and the log after. *)
Definition M (A : Type) : Type := S -> list Event -> Completion A * S * list Event.

Definition ret {A : Type} (a : A) : M A := fun s l => (Normal a, s, l).

Definition bind {A B : Type} (m : M A) (k : A -> M B) : M B :=
  fun s l =>
    match m s l with
    | (Normal a, s', l') => k a s' l'
    | (Returned, s', l') => (Returned, s', l')
    | (Threw e, s', l') => (Threw e, s', l')
    end.

(** A state setter and a write to [ref.current]. *)
Definition modify (f : S -> S) : M unit := fun s l => (Normal tt, f s, l).

(** A read of [ref.current]. *)
Definition read {A : Type} (f : S -> A) : M A := fun s l => (Normal (f s), s, l).

Definition emit (ev : Event) : M unit := fun s l => (Normal tt, s, (l ++ [ev])%list).

Definition throw {A : Type} (e : Thrown) : M A := fun s l => (Threw e, s, l).

(** [return;] *)
Definition return_ {A : Type} : M A := fun s l => (Returned, s, l).

(** [await call]: the call is made, then its promise settles. *)
Definition await {A : Type} (call : Event) (p : Settled A) : M A :=
  fun s l =>
    match p with
    | Resolved a => (Normal a, s, (l ++ [call])%list)
    | Rejected e => (Threw e, s, (l ++ [call])%list)
    end.

(** [try { body } catch (e) { handler } finally { fin }] *)
Definition try_catch_finally (body : M unit) (handler : Thrown -> M unit) (fin : M unit)
  : M unit :=
  fun s l =>
    let '(c1, s1, l1) := body s l in
    let '(c2, s2, l2) :=
      match c1 with
      | Threw e => handler e s1 l1
      | _ => (c1, s1, l1)
      end in
    let '(c3, s3, l3) := fin s2 l2 in
    match c3 with
    | Normal _ => (c2, s3, l3)
    | _ => (c3, s3, l3)
    end.

(** The body of a function: [return] ends it normally. *)
Definition function_body (body : M unit) : M unit :=
  fun s l =>
    match body s l with
    | (Returned, s', l') => (Normal tt, s', l')
    | r => r
    end.

(** A call that is not awaited.  Its actions are interleaved with the
    caller's by the scheduler; here it runs to completion at the call, its
    events are kept apart under [Background], and a rejection does not
    reach the caller. *)
Definition background (task : M unit) : M unit :=
  fun s l =>
    let '(_, s', l') := task s [] in
    (Normal tt, s', (l ++ [Background l'])%list).

(** [o.k]: a [TypeError] on [null] and [undefined]. *)
Definition member (E : Engine) (o : JsValue) (k : string) : M JsValue :=
  if nullish o then throw (Error (TypeError_message E (ReadOfNullish o k)))
  else ret (prop o k).

(** [v.toFixed(f)]: only a Number has the method. *)
Definition call_toFixed (E : Engine) (v : JsValue) (f : nat) : M string :=
  match v with
  | JNum x => ret (toFixed f x)
  | _ =>
      if nullish v then throw (Error (TypeError_message E (ReadOfNullish v "toFixed")))
      else throw (Error (TypeError_message E (NotAFunction v "toFixed")))
  end.

(** The state and the log when the call on state [s] has completed. *)
Definition run (m : M unit) (s : S) : S * list Event :=
  let '(_, s', l) := m s [] in (s', l).

Definition state_after (m : M unit) (s : S) : S := fst (run m s).
Definition log_of (m : M unit) (s : S) : list Event := snd (run m s).
End Monad.

Arguments M S A : clear implicits.

Declare Scope js_scope.
Delimit Scope js_scope with js.
Notation "x <- m ;; k" := (bind m (fun x => k))
  (at level 61, m at next level, right associativity) : js_scope.
Notation "m ;; k" := (bind m (fun _ => k))
  (at level 61, right associativity) : js_scope.

(** [error instanceof Error ? error.message : 'Unknown error'] *)
Definition message_of (e : Thrown) : string :=
  match e with
  | Error m => m
  | NotAnError _ => "Unknown error"
  end.

(** [`${token}`] for a token that is a string or [null]. *)
Definition token_text (token : option string) : string :=
  match token with
  | Some t => t
  | None => "null"
  end.

(** The requests a call makes itself, those of its background calls left out. *)
Definition is_request (ev : Event) : bool :=
  match ev with
  | AxiosPost _ _ _ | AxiosGet _ _ => true
  | _ => false
  end.

Definition is_background (ev : Event) : bool :=
  match ev with
  | Background _ => true
  | _ => false
  end.

(** A read through the storage wrapper, [storage.getItem]. *)
Definition is_wrapper_read (ev : Event) : bool :=
  match ev with
  | StorageGetItem _ => true
  | _ => false
  end.

(** The [Authorization] header of a request. *)
Definition authorization_of (ev : Event) : option string :=
  match ev with
  | AxiosPost _ _ authorization | AxiosGet _ authorization => Some authorization
  | _ => None
  end.

Definition own_requests (l : list Event) : list Event := filter is_request l.
Definition background_calls (l : list Event) : list Event := filter is_background l.

End Effects.

(** ** The practice hook ([app/hooks/usePractice.ts]) *)

Module UsePractice.
Import Js Effects.
Local Open Scope js_scope.

(** [FeedbackResponse]: the fields [isCorrect] and [feedback]. *)
Record FeedbackResponse : Type := {
  isCorrect : bool;
  feedbackText : JsValue
}.

Inductive DifficultyTrend : Type := increasing | decreasing | stable.

Inductive DifficultyDirection : Type := up | down.

Definition direction_text (d : DifficultyDirection) : string :=
  match d with
  | up => "up"
  | down => "down"
  end.

(** The state cells of the hook and [previousDifficultyRef.current].  A
    practice item is the object the server sent or the one [generatePractice]
    built; [null] is [JNull]. *)
Record Hook : Type := {
  loading : bool;
  generatingBatch : bool;
  currentPractice : JsValue;
  userAnswer : string;
  feedback : option FeedbackResponse;
  errorMessage : option string;
  questionQueue : list JsValue;
  adjusting : bool;
  difficultyTrend : DifficultyTrend;
  previousDifficultyRef : JsValue;
  difficultyChange : option string;
  feedbackQuestion : string;
  feedbackAnswer : JsValue;
  askingQuestion : bool
}.

(** The [useState] and [useRef] initial values. *)
Definition initial : Hook := {|
  loading := false;
  generatingBatch := false;
  currentPractice := JNull;
  userAnswer := "";
  feedback := None;
  errorMessage := None;
  questionQueue := [];
  adjusting := false;
  difficultyTrend := stable;
  previousDifficultyRef := JNull;
  difficultyChange := None;
  feedbackQuestion := "";
  feedbackAnswer := JNull;
  askingQuestion := false
|}.

Definition with_loading (v : bool) (h : Hook) : Hook :=
  {| loading := v;
     generatingBatch := generatingBatch h;
     currentPractice := currentPractice h;
     userAnswer := userAnswer h;
     feedback := feedback h;
     errorMessage := errorMessage h;
     questionQueue := questionQueue h;
     adjusting := adjusting h;
     difficultyTrend := difficultyTrend h;
     previousDifficultyRef := previousDifficultyRef h;
     difficultyChange := difficultyChange h;
     feedbackQuestion := feedbackQuestion h;
     feedbackAnswer := feedbackAnswer h;
     askingQuestion := askingQuestion h |}.

Definition with_generatingBatch (v : bool) (h : Hook) : Hook :=
  {| loading := loading h;
     generatingBatch := v;
     currentPractice := currentPractice h;
     userAnswer := userAnswer h;
     feedback := feedback h;
     errorMessage := errorMessage h;
     questionQueue := questionQueue h;
     adjusting := adjusting h;
     difficultyTrend := difficultyTrend h;
     previousDifficultyRef := previousDifficultyRef h;
     difficultyChange := difficultyChange h;
     feedbackQuestion := feedbackQuestion h;
     feedbackAnswer := feedbackAnswer h;
     askingQuestion := askingQuestion h |}.

Definition with_currentPractice (v : JsValue) (h : Hook) : Hook :=
  {| loading := loading h;
     generatingBatch := generatingBatch h;
     currentPractice := v;
     userAnswer := userAnswer h;
     feedback := feedback h;
     errorMessage := errorMessage h;
     questionQueue := questionQueue h;
     adjusting := adjusting h;
     difficultyTrend := difficultyTrend h;
     previousDifficultyRef := previousDifficultyRef h;
     difficultyChange := difficultyChange h;
     feedbackQuestion := feedbackQuestion h;
     feedbackAnswer := feedbackAnswer h;
     askingQuestion := askingQuestion h |}.

Definition with_userAnswer (v : string) (h : Hook) : Hook :=
  {| loading := loading h;
     generatingBatch := generatingBatch h;
     currentPractice := currentPractice h;
     userAnswer := v;
     feedback := feedback h;
     errorMessage := errorMessage h;
     questionQueue := questionQueue h;
     adjusting := adjusting h;
     difficultyTrend := difficultyTrend h;
     previousDifficultyRef := previousDifficultyRef h;
     difficultyChange := difficultyChange h;
     feedbackQuestion := feedbackQuestion h;
     feedbackAnswer := feedbackAnswer h;
     askingQuestion := askingQuestion h |}.

Definition with_feedback (v : option FeedbackResponse) (h : Hook) : Hook :=
  {| loading := loading h;
     generatingBatch := generatingBatch h;
     currentPractice := currentPractice h;
     userAnswer := userAnswer h;
     feedback := v;
     errorMessage := errorMessage h;
     questionQueue := questionQueue h;
     adjusting := adjusting h;
     difficultyTrend := difficultyTrend h;
     previousDifficultyRef := previousDifficultyRef h;
     difficultyChange := difficultyChange h;
     feedbackQuestion := feedbackQuestion h;
     feedbackAnswer := feedbackAnswer h;
     askingQuestion := askingQuestion h |}.

Definition with_errorMessage (v : option string) (h : Hook) : Hook :=
  {| loading := loading h;
     generatingBatch := generatingBatch h;
     currentPractice := currentPractice h;
     userAnswer := userAnswer h;
     feedback := feedback h;
     errorMessage := v;
     questionQueue := questionQueue h;
     adjusting := adjusting h;
     difficultyTrend := difficultyTrend h;
     previousDifficultyRef := previousDifficultyRef h;
     difficultyChange := difficultyChange h;
     feedbackQuestion := feedbackQuestion h;
     feedbackAnswer := feedbackAnswer h;
     askingQuestion := askingQuestion h |}.

Definition with_questionQueue (v : list JsValue) (h : Hook) : Hook :=
  {| loading := loading h;
     generatingBatch := generatingBatch h;
     currentPractice := currentPractice h;
     userAnswer := userAnswer h;
     feedback := feedback h;
     errorMessage := errorMessage h;
     questionQueue := v;
     adjusting := adjusting h;
     difficultyTrend := difficultyTrend h;
     previousDifficultyRef := previousDifficultyRef h;
     difficultyChange := difficultyChange h;
     feedbackQuestion := feedbackQuestion h;
     feedbackAnswer := feedbackAnswer h;
     askingQuestion := askingQuestion h |}.

Definition with_adjusting (v : bool) (h : Hook) : Hook :=
  {| loading := loading h;
     generatingBatch := generatingBatch h;
     currentPractice := currentPractice h;
     userAnswer := userAnswer h;
     feedback := feedback h;
     errorMessage := errorMessage h;
     questionQueue := questionQueue h;
     adjusting := v;
     difficultyTrend := difficultyTrend h;
     previousDifficultyRef := previousDifficultyRef h;
     difficultyChange := difficultyChange h;
     feedbackQuestion := feedbackQuestion h;
     feedbackAnswer := feedbackAnswer h;
     askingQuestion := askingQuestion h |}.

Definition with_difficultyTrend (v : DifficultyTrend) (h : Hook) : Hook :=
  {| loading := loading h;
     generatingBatch := generatingBatch h;
     currentPractice := currentPractice h;
     userAnswer := userAnswer h;
     feedback := feedback h;
     errorMessage := errorMessage h;
     questionQueue := questionQueue h;
     adjusting := adjusting h;
     difficultyTrend := v;
     previousDifficultyRef := previousDifficultyRef h;
     difficultyChange := difficultyChange h;
     feedbackQuestion := feedbackQuestion h;
     feedbackAnswer := feedbackAnswer h;
     askingQuestion := askingQuestion h |}.

Definition write_previousDifficultyRef (v : JsValue) (h : Hook) : Hook :=
  {| loading := loading h;
     generatingBatch := generatingBatch h;
     currentPractice := currentPractice h;
     userAnswer := userAnswer h;
     feedback := feedback h;
     errorMessage := errorMessage h;
     questionQueue := questionQueue h;
     adjusting := adjusting h;
     difficultyTrend := difficultyTrend h;
     previousDifficultyRef := v;
     difficultyChange := difficultyChange h;
     feedbackQuestion := feedbackQuestion h;
     feedbackAnswer := feedbackAnswer h;
     askingQuestion := askingQuestion h |}.

Definition with_difficultyChange (v : option string) (h : Hook) : Hook :=
  {| loading := loading h;
     generatingBatch := generatingBatch h;
     currentPractice := currentPractice h;
     userAnswer := userAnswer h;
     feedback := feedback h;
     errorMessage := errorMessage h;
     questionQueue := questionQueue h;
     adjusting := adjusting h;
     difficultyTrend := difficultyTrend h;
     previousDifficultyRef := previousDifficultyRef h;
     difficultyChange := v;
     feedbackQuestion := feedbackQuestion h;
     feedbackAnswer := feedbackAnswer h;
     askingQuestion := askingQuestion h |}.

Definition with_feedbackQuestion (v : string) (h : Hook) : Hook :=
  {| loading := loading h;
     generatingBatch := generatingBatch h;
     currentPractice := currentPractice h;
     userAnswer := userAnswer h;
     feedback := feedback h;
     errorMessage := errorMessage h;
     questionQueue := questionQueue h;
     adjusting := adjusting h;
     difficultyTrend := difficultyTrend h;
     previousDifficultyRef := previousDifficultyRef h;
     difficultyChange := difficultyChange h;
     feedbackQuestion := v;
     feedbackAnswer := feedbackAnswer h;
     askingQuestion := askingQuestion h |}.

Definition with_feedbackAnswer (v : JsValue) (h : Hook) : Hook :=
  {| loading := loading h;
     generatingBatch := generatingBatch h;
     currentPractice := currentPractice h;
     userAnswer := userAnswer h;
     feedback := feedback h;
     errorMessage := errorMessage h;
     questionQueue := questionQueue h;
     adjusting := adjusting h;
     difficultyTrend := difficultyTrend h;
     previousDifficultyRef := previousDifficultyRef h;
     difficultyChange := difficultyChange h;
     feedbackQuestion := feedbackQuestion h;
     feedbackAnswer := v;
     askingQuestion := askingQuestion h |}.

Definition with_askingQuestion (v : bool) (h : Hook) : Hook :=
  {| loading := loading h;
     generatingBatch := generatingBatch h;
     currentPractice := currentPractice h;
     userAnswer := userAnswer h;
     feedback := feedback h;
     errorMessage := errorMessage h;
     questionQueue := questionQueue h;
     adjusting := adjusting h;
     difficultyTrend := difficultyTrend h;
     previousDifficultyRef := previousDifficultyRef h;
     difficultyChange := difficultyChange h;
     feedbackQuestion := feedbackQuestion h;
     feedbackAnswer := feedbackAnswer h;
     askingQuestion := v |}.

(** The setters, as statements.  [setQuestionQueueWith] is the form that
    takes an updater [prevQueue => ...], applied to the live state. *)
Definition setLoading (v : bool) : M Hook unit := modify (with_loading v).
Definition setGeneratingBatch (v : bool) : M Hook unit := modify (with_generatingBatch v).
Definition setCurrentPractice (v : JsValue) : M Hook unit := modify (with_currentPractice v).
Definition setUserAnswer (v : string) : M Hook unit := modify (with_userAnswer v).
Definition setFeedback (v : option FeedbackResponse) : M Hook unit := modify (with_feedback v).
Definition setErrorMessage (v : option string) : M Hook unit := modify (with_errorMessage v).
Definition setQuestionQueue (v : list JsValue) : M Hook unit := modify (with_questionQueue v).
Definition setAdjusting (v : bool) : M Hook unit := modify (with_adjusting v).
Definition setDifficultyTrend (v : DifficultyTrend) : M Hook unit := modify (with_difficultyTrend v).
Definition setDifficultyChange (v : option string) : M Hook unit := modify (with_difficultyChange v).
Definition setFeedbackQuestion (v : string) : M Hook unit := modify (with_feedbackQuestion v).
Definition setFeedbackAnswer (v : JsValue) : M Hook unit := modify (with_feedbackAnswer v).
Definition setAskingQuestion (v : bool) : M Hook unit := modify (with_askingQuestion v).
Definition setQuestionQueueWith (f : list JsValue -> list JsValue) : M Hook unit :=
  modify (fun h => with_questionQueue (f (questionQueue h)) h).

Definition nl : string := String (ascii_of_nat 10) "".

Section Render.
(** One render of the component: the engine, the build, the world, and the
    values the functions created by this render close over, [user] from
    [useAuth] and the state [r] the render saw.  The setters act on the
    live state, which the monad threads. *)
Variable E : Engine.
Variable production : bool.
Variable env : Env.
Variable user : JsValue.
Variable r : Hook.

(** [await storage.getItem(key)] *)
Definition storage_getItem_call (key : string) : M Hook (option string) :=
  await (StorageGetItem key) (storage_getItem env key).

(** [await axios.post(url, body, { headers: { Authorization } })] *)
Definition axios_post_call (url : string) (body : JsValue) (authorization : string)
  : M Hook JsValue :=
  await (AxiosPost url body authorization) (axios_post env url body authorization).

Definition alert (title message : string) : M Hook unit := emit (Alert title message).

(** Function to generate a batch of practice questions in the background *)
Definition generatePracticeBatch : M Hook unit :=
  function_body (
    (if negb (truthy user) || generatingBatch r then return_ else ret tt) ;;
    try_catch_finally
      (setGeneratingBatch true ;;
       token <- storage_getItem_call Config.STORAGE_KEYS.AUTH_TOKEN ;;
       userId <- member E user "_id" ;;
       response <- axios_post_call (Config.API_URL production ++ "/api/practice/generate")
                     (JObj [("userId", userId); ("random", JBool true);
                            ("batchSize", JNum 5%float)])
                     ("Bearer " ++ token_text token) ;;
       if truthy (opt_prop response "success") && truthy (opt_prop response "data")
       then ret tt
       else ret tt)
      (fun _ => ret tt)
      (setGeneratingBatch false)).

(** Function to generate practice with additional error handling *)
Definition generatePractice (forceNew : bool) : M Hook unit :=
  function_body (
    try_catch_finally
      (setErrorMessage None ;;
       (if negb (truthy user)
        then alert "Error" "You must be logged in to practice" ;; return_
        else ret tt) ;;
       setFeedback None ;;
       setUserAnswer "" ;;
       setFeedbackQuestion "" ;;
       setFeedbackAnswer JNull ;;
       setAskingQuestion false ;;
       (if negb forceNew && (0 <? List.length (questionQueue r))
        then
          let nextQuestion := nth 0 (questionQueue r) JUndefined in
          let remainingQuestions := skipn 1 (questionQueue r) in
          setCurrentPractice nextQuestion ;;
          setQuestionQueue remainingQuestions ;;
          (if (List.length remainingQuestions <? 2) && negb (generatingBatch r)
           then background generatePracticeBatch
           else ret tt) ;;
          return_
        else ret tt) ;;
       setLoading true ;;
       token <- storage_getItem_call Config.STORAGE_KEYS.AUTH_TOKEN ;;
       userId <- member E user "_id" ;;
       response <- axios_post_call (Config.API_URL production ++ "/api/practice/generate")
                     (JObj [("userId", userId); ("random", JBool true);
                            ("batchSize", JNum 5%float)])
                     ("Bearer " ++ token_text token) ;;
       if truthy (opt_prop response "success") && truthy (opt_prop response "data")
       then
         let field (k : string) : M Hook JsValue :=
           (data <- member E response "data" ;; member E data k) in
         _id <- field "_id" ;;
         content <- field "content" ;;
         translation <- field "translation" ;;
         type <- field "type" ;;
         difficulty <- field "difficulty" ;;
         complexity <- field "complexity" ;;
         categories <- field "categories" ;;
         questionType <- field "questionType" ;;
         options <- field "options" ;;
         let practice :=
           JObj [("_id", or_else _id (JStr ""));
                 ("content", or_else content (JStr ""));
                 ("translation", or_else translation (JStr ""));
                 ("type", or_else type (JStr "vocabulary"));
                 ("difficulty", or_else difficulty (JNum 1%float));
                 ("complexity", or_else complexity (JNum 1%float));
                 ("categories", if isArray categories then categories else JArr []);
                 ("questionType", or_else questionType (JStr ""));
                 ("options", if isArray options then options else JArr [])] in
         setCurrentPractice practice
       else throw (Error "Invalid practice data received"))
      (fun error =>
         setErrorMessage (Some ("Failed to generate practice: " ++ message_of error)) ;;
         alert "Error" "Failed to generate practice. Please try again.")
      (setLoading false)).

(** Function to submit user's answer *)
Definition submitAnswer : M Hook unit :=
  function_body (
    try_catch_finally
      (setErrorMessage None ;;
       (if negb (truthy (currentPractice r))
        then alert "Error" "No practice question available" ;; return_
        else ret tt) ;;
       (if String.eqb (userAnswer r) "" || String.eqb (trim (userAnswer r)) ""
        then alert "Error" "Please provide an answer" ;; return_
        else ret tt) ;;
       setLoading true ;;
       token <- storage_getItem_call Config.STORAGE_KEYS.AUTH_TOKEN ;;
       practiceId <- member E (currentPractice r) "_id" ;;
       response <- axios_post_call (Config.API_URL production ++ "/api/practice/submit")
                     (JObj [("practiceId", practiceId);
                            ("userAnswer", JStr (userAnswer r))])
                     ("Bearer " ++ token_text token) ;;
       verdict <-
         (if truthy (opt_prop response "success") && truthy (opt_prop response "data")
          then
            data <- member E response "data" ;;
            nextPractice <- member E data "nextPractice" ;;
            (if truthy nextPractice
             then setQuestionQueueWith (fun prevQueue => (prevQueue ++ [nextPractice])%list)
             else ret tt) ;;
            evaluation <- member E data "evaluation" ;;
            if truthy evaluation
            then
              correct <- member E evaluation "isCorrect" ;;
              text <- member E evaluation "feedback" ;;
              ret (truthy correct,
                   match text with
                   | JUndefined => JStr ""
                   | _ => text
                   end)
            else ret (false, JStr "")
          else ret (false, JStr "")) ;;
       setFeedback (Some {| isCorrect := fst verdict; feedbackText := snd verdict |}))
      (fun error =>
         setErrorMessage (Some ("Failed to submit answer: " ++ message_of error)) ;;
         alert "Error" "Failed to submit answer. Please try again.")
      (setLoading false)).

(** Function to adjust difficulty level.  The [OK] button of the alert and
    the delay of the timer are not run; the timer is logged. *)
Definition adjustDifficulty (direction : DifficultyDirection) : M Hook unit :=
  function_body (
    try_catch_finally
      (setAdjusting true ;;
       setErrorMessage None ;;
       (if negb (truthy user)
        then alert "Error" "You must be logged in to adjust difficulty" ;; return_
        else ret tt) ;;
       token <- storage_getItem_call Config.STORAGE_KEYS.AUTH_TOKEN ;;
       response <- axios_post_call
                     (Config.API_URL production ++ "/api/practice/adjust-difficulty")
                     (JObj [("direction", JStr (direction_text direction))])
                     ("Bearer " ++ token_text token) ;;
       if truthy (opt_prop response "success")
       then
         data <- member E response "data" ;;
         newLevel <- member E data "level" ;;
         oldDifficulty <-
           (if truthy (opt_prop (currentPractice r) "difficulty")
            then
              difficulty <- member E (currentPractice r) "difficulty" ;;
              call_toFixed E difficulty 2
            else ret "1.00") ;;
         setDifficultyTrend (match direction with
                             | up => increasing
                             | down => decreasing
                             end) ;;
         let oldValue := parseFloat oldDifficulty in
         newText <- call_toFixed E newLevel 2 ;;
         let newValue := parseFloat newText in
         let change := toFixed 2 (minus newValue oldValue) in
         let sign := if String.prefix "-" change then "" else "+" in
         setDifficultyChange (Some (sign ++ change)) ;;
         shown <- call_toFixed E newLevel 2 ;;
         alert "Difficulty Adjusted"
           ("Your difficulty level has changed from " ++ oldDifficulty ++ " to " ++ shown
            ++ "." ++ nl ++ nl ++ "Change: " ++ sign ++ change ++ nl ++ nl
            ++ "New questions will reflect this change.") ;;
         background (generatePractice true) ;;
         emit (SetTimeout ClearDifficultyChange 15000)
       else ret tt)
      (fun error =>
         setErrorMessage (Some ("Failed to adjust difficulty: " ++ message_of error)) ;;
         alert "Error" "Failed to adjust difficulty. Please try again.")
      (setAdjusting false)).

(** The callback of the timer set by [adjustDifficulty]. *)
Definition timer (callback : TimerCallback) : M Hook unit :=
  match callback with
  | ClearDifficultyChange => setDifficultyChange None
  end.

(** Function to handle asking a question about the feedback *)
Definition askFeedbackQuestion : M Hook unit :=
  function_body (
    (if String.eqb (trim (feedbackQuestion r)) ""
        || negb (truthy (currentPractice r))
        || match feedback r with None => true | Some _ => false end
     then return_
     else ret tt) ;;
    try_catch_finally
      (setAskingQuestion true ;;
       setFeedbackAnswer JNull ;;
       token <- storage_getItem_call Config.STORAGE_KEYS.AUTH_TOKEN ;;
       practiceId <- member E (currentPractice r) "_id" ;;
       response <- axios_post_call (Config.API_URL production ++ "/api/practice/question")
                     (JObj [("question", JStr (feedbackQuestion r));
                            ("practiceId", practiceId);
                            ("userAnswer", JStr (userAnswer r));
                            ("feedback", match feedback r with
                                         | Some f => feedbackText f
                                         | None => JUndefined
                                         end)])
                     ("Bearer " ++ token_text token) ;;
       if truthy response && truthy (prop response "answer")
       then setFeedbackAnswer (prop response "answer")
       else alert "Error" "The response from the server was in an unexpected format.")
      (fun _ => alert "Error" "Failed to get an answer. Please try again.")
      (setAskingQuestion false)).

(** Function to clear practice state including feedback questions *)
Definition handleNextPractice : M Hook unit :=
  function_body (
    setFeedback None ;;
    setUserAnswer "" ;;
    setFeedbackQuestion "" ;;
    setFeedbackAnswer JNull ;;
    setAskingQuestion false ;;
    background (generatePractice false)).

(** Update difficulty trend when current practice changes: the effect that
    runs after a render in which [currentPractice] changed. *)
Definition difficultyTrendEffect : M Hook unit :=
  function_body (
    if truthy (currentPractice r) && truthy (prop (currentPractice r) "difficulty")
    then
      let difficulty := prop (currentPractice r) "difficulty" in
      previous <- read previousDifficultyRef ;;
      match previous with
      | JNull => ret tt
      | _ =>
          if greaterThan E difficulty previous then setDifficultyTrend increasing
          else if lessThan E difficulty previous then setDifficultyTrend decreasing
          else setDifficultyTrend stable
      end ;;
      modify (write_previousDifficultyRef difficulty)
    else ret tt).

(** Load initial practice when component mounts. *)
Definition mountEffect : M Hook unit :=
  function_body (if truthy user then background (generatePractice true) else ret tt).
End Render.

(** The property names of the object [usePractice] returns. *)
Definition usePractice_return : list string :=
  ["loading"; "generatingBatch"; "currentPractice"; "userAnswer"; "feedback";
   "errorMessage"; "adjusting"; "difficultyTrend"; "difficultyChange";
   "feedbackQuestion"; "feedbackAnswer"; "askingQuestion";
   "setUserAnswer"; "setFeedbackQuestion";
   "generatePractice"; "submitAnswer"; "handleNextPractice"; "showAdjustmentDialog";
   "askFeedbackQuestion"; "adjustDifficulty"].

(** [const { name } = usePractice()]: whether [name] is bound to a member of
    the returned object, rather than to [undefined]. *)
Definition destructured_defined (name : string) : bool :=
  existsb (String.eqb name) usePractice_return.

End UsePractice.

(** ** The practice screen ([app/(tabs)/practice.tsx]) and the practice
    component ([app/components/practice/Practice.tsx]) *)

Module PracticeScreen.
(** The names the screen destructures from [usePractice()]. *)
Definition destructured : list string :=
  ["loading"; "generatingBatch"; "currentPractice"; "userAnswer"; "feedback";
   "errorMessage"; "adjusting"; "difficultyTrend"; "difficultyChange";
   "complexityChange"; "feedbackQuestion"; "feedbackAnswer"; "askingQuestion";
   "adjustmentMode";
   "setUserAnswer"; "setFeedbackQuestion";
   "generatePractice"; "submitAnswer"; "handleNextPractice"; "showAdjustmentDialog";
   "askFollowUpQuestion"].
End PracticeScreen.

Module PracticeComponent.
(** The names the component destructures from [usePractice()]. *)
Definition destructured : list string :=
  ["currentPractice"; "userAnswer"; "setUserAnswer"; "loading"; "submitAnswer";
   "feedback"; "generatePractice"; "feedbackQuestion"; "setFeedbackQuestion";
   "askingQuestion"; "errorMessage"; "difficultyTrend"; "difficultyChange";
   "complexityChange"; "adjusting"; "adjustmentMode"; "showAdjustmentDialog";
   "showAdjustmentModal"; "setShowAdjustmentModal"; "enterAdjustmentMode";
   "handleNextPractice"; "askFollowUpQuestion"; "feedbackAnswer"].
End PracticeComponent.

(** ** The profile hook ([app/hooks/useProfile.ts]) *)

Module UseProfile.
Import Js Effects.
Local Open Scope js_scope.

Record Hook : Type := {
  loading : bool;
  profile : JsValue;
  error : option string;
  selectedLanguage : JsValue
}.

Definition initial : Hook := {|
  loading := true;
  profile := JNull;
  error := None;
  selectedLanguage := JStr "English"
|}.

Definition setLoading (v : bool) : M Hook unit :=
  modify (fun h => {| loading := v; profile := profile h; error := error h;
                      selectedLanguage := selectedLanguage h |}).

Definition setProfile (v : JsValue) : M Hook unit :=
  modify (fun h => {| loading := loading h; profile := v; error := error h;
                      selectedLanguage := selectedLanguage h |}).

Definition setError (v : option string) : M Hook unit :=
  modify (fun h => {| loading := loading h; profile := profile h; error := v;
                      selectedLanguage := selectedLanguage h |}).

Definition setSelectedLanguage (v : JsValue) : M Hook unit :=
  modify (fun h => {| loading := loading h; profile := profile h; error := error h;
                      selectedLanguage := v |}).

Section Render.
Variable E : Engine.
Variable production : bool.
Variable env : Env.

(** Fetch user profile data *)
Definition fetchUserProfile : M Hook unit :=
  function_body (
    try_catch_finally
      (setLoading true ;;
       setError None ;;
       token <- await (StorageGetItem Config.STORAGE_KEYS.AUTH_TOKEN)
                  (storage_getItem env Config.STORAGE_KEYS.AUTH_TOKEN) ;;
       response <- (let url := Config.API_URL production ++ "/api/user/profile" in
                    let authorization := "Bearer " ++ token_text token in
                    await (AxiosGet url authorization) (axios_get env url authorization)) ;;
       success <- member E response "success" ;;
       if truthy success
       then
         data <- member E response "data" ;;
         setProfile data ;;
         profileUser <- member E data "user" ;;
         motherLanguage <- member E profileUser "motherLanguage" ;;
         if truthy motherLanguage
         then setSelectedLanguage motherLanguage
         else ret tt
       else setError (Some "Failed to load profile"))
      (fun error =>
         emit (ConsoleError "Error fetching profile:" error) ;;
         setError (Some "Failed to load profile. Please try again."))
      (setLoading false)).
End Render.

End UseProfile.

(** ** The profile screen (the [ProfileScreen] component) *)

Module ProfileScreen.
Import Js Effects.
Local Open Scope js_scope.

Record Screen : Type := {
  loading : bool;
  profile : JsValue;
  error : option string
}.

Definition initial : Screen := {| loading := true; profile := JNull; error := None |}.

Definition setLoading (v : bool) : M Screen unit :=
  modify (fun h => {| loading := v; profile := profile h; error := error h |}).

Definition setProfile (v : JsValue) : M Screen unit :=
  modify (fun h => {| loading := loading h; profile := v; error := error h |}).

Definition setError (v : option string) : M Screen unit :=
  modify (fun h => {| loading := loading h; profile := profile h; error := v |}).

Section Render.
Variable E : Engine.
Variable production : bool.
Variable env : Env.

(** Fetch user profile data *)
Definition fetchUserProfile : M Screen unit :=
  function_body (
    try_catch_finally
      (setLoading true ;;
       token <- await (SecureStoreGetItemAsync Config.STORAGE_KEYS.AUTH_TOKEN)
                  (SecureStore_getItemAsync env Config.STORAGE_KEYS.AUTH_TOKEN) ;;
       response <- (let url := Config.API_URL production ++ "/api/user/profile" in
                    let authorization := "Bearer " ++ token_text token in
                    await (AxiosGet url authorization) (axios_get env url authorization)) ;;
       success <- member E response "success" ;;
       if truthy success
       then
         data <- member E response "data" ;;
         setProfile data
       else setError (Some "Failed to load profile"))
      (fun error =>
         emit (ConsoleError "Error fetching profile:" error) ;;
         setError (Some "Failed to load profile. Please try again."))
      (setLoading false)).
End Render.

End ProfileScreen.

(** ** Sessions on the practice screen *)

Module Session.
Import Js Effects UsePractice.

(** What the user does, with the world as it answers at that moment: submit
    the answer, ask for the next question ([generatePractice()]), or force a
    new one ([generatePractice(true)]).  Each call is made by the render of
    the current state and runs to completion before the next. *)
Inductive Action : Type :=
| Submit (env : Env)
| Next (env : Env)
| ForceNew (env : Env).

(** The state, the queue items presented so far and the items enqueued so
    far, each in the order it happened. *)
Record Trace : Type := {
  state : Hook;
  presented : list JsValue;
  enqueued : list JsValue
}.

Section Session.
Variable E : Engine.
Variable production : bool.
Variable user : JsValue.

(** [generatePractice()] serves the question from the queue. *)
Definition serves_from_queue (s : Hook) : bool :=
  truthy user && (0 <? List.length (questionQueue s)).

Definition step (t : Trace) (a : Action) : Trace :=
  let s := state t in
  match a with
  | Submit env =>
      let s' := state_after (submitAnswer E production env s) s in
      {| state := s';
         presented := presented t;
         enqueued := enqueued t
                     ++ skipn (List.length (questionQueue s)) (questionQueue s') |}
  | Next env =>
      let s' := state_after (generatePractice E production env user s false) s in
      {| state := s';
         presented := presented t
                      ++ (if serves_from_queue s then [currentPractice s'] else []);
         enqueued := enqueued t |}
  | ForceNew env =>
      let s' := state_after (generatePractice E production env user s true) s in
      {| state := s'; presented := presented t; enqueued := enqueued t |}
  end.

Definition session (actions : list Action) (s : Hook) : Trace :=
  fold_left step actions {| state := s; presented := []; enqueued := [] |}.
End Session.

End Session.

(** ** The statements of the specification that the code does not meet,
    worded as the specification has them *)

Module AsStated.
Import Js Effects UsePractice.

(** The verdict: the boolean coercion of the [evaluation.isCorrect] field of
    the response, [false] when the response carries no evaluation. *)
Definition verdict (response : JsValue) : bool :=
  let evaluation := opt_prop (opt_prop response "data") "evaluation" in
  if nullish evaluation then false else truthy (prop evaluation "isCorrect").

(** The displayed change: the server level rounded to two decimals, minus
    the difficulty of the current practice item (1.00 when it has none),
    shown with two decimals and prefixed with [+] when non-negative. *)
Definition displayed_change (level : float) (currentPractice : JsValue) : string :=
  let rounded := parseFloat (toFixed 2 level) in
  let difficulty :=
    match opt_prop currentPractice "difficulty" with
    | JNum d => d
    | _ => 1%float
    end in
  let change := minus rounded difficulty in
  ((if (change <? 0)%float then "" else "+") ++ toFixed 2 change)%string.

End AsStated.

(** ** Wording shared by the statements *)

Module Wording.
Import Js.

(** Field [k] of [item] is the field of [data] when that is truthy and
    [default] otherwise. *)
Definition defaults_to (item data : JsValue) (k : string) (default : JsValue) : Prop :=
  (truthy (prop data k) = true -> prop item k = prop data k) /\
  (truthy (prop data k) = false -> prop item k = default).

(** Field [k] of [item] is the field of [data] when that is an array and the
    empty array otherwise. *)
Definition array_or_empty (item data : JsValue) (k : string) : Prop :=
  isArray (prop item k) = true /\
  (isArray (prop data k) = true -> prop item k = prop data k) /\
  (isArray (prop data k) = false -> prop item k = JArr []).

(** The fields of a [PracticeItem], in the order [generatePractice] writes them. *)
Definition PracticeItem_fields : list string :=
  ["_id"; "content"; "translation"; "type"; "difficulty"; "complexity";
   "categories"; "questionType"; "options"].

(** The verdict [submitAnswer] takes from a response: the evaluation counts
    only in a response marked successful with data. *)
Definition server_verdict (response : JsValue) : bool :=
  truthy (opt_prop response "success") && truthy (opt_prop response "data")
  && truthy (prop (prop response "data") "evaluation")
  && truthy (prop (prop (prop response "data") "evaluation") "isCorrect").

(** The item a response to [submitAnswer] adds to the queue, if any. *)
Definition server_nextPractice (response : JsValue) : list JsValue :=
  if truthy (opt_prop response "success") && truthy (opt_prop response "data")
     && truthy (prop (prop response "data") "nextPractice")
  then [prop (prop response "data") "nextPractice"]
  else [].

(** The old difficulty as [adjustDifficulty] shows it: the difficulty of the
    current practice item with two decimals, ["1.00"] when there is no item
    or its difficulty is falsy; nothing when the difficulty is truthy and
    not a Number (the call then fails with a [TypeError]). *)
Definition shown_difficulty (currentPractice : JsValue) : option string :=
  let difficulty := opt_prop currentPractice "difficulty" in
  if truthy difficulty
  then match difficulty with
       | JNum d => Some (toFixed 2 d)
       | _ => None
       end
  else Some "1.00".

End Wording.

(** ** Sample inputs *)

Module Samples.
Import Js Effects UsePractice.

Definition engine : Engine := {|
  TypeError_message := fun site =>
    match site with
    | ReadOfNullish base key =>
        "Cannot read properties of "
        ++ match base with JNull => "null" | _ => "undefined" end
        ++ " (reading '" ++ key ++ "')"
    | NotAFunction _ method => method ++ " is not a function"
    end;
  lessThan_coerced := fun _ _ => false
|}.

(** A world in which the token is stored and every request is answered with
    the same response data. *)
Definition answering (response : Settled JsValue) : Env := {|
  storage_getItem := fun _ => Resolved (Some "token");
  SecureStore_getItemAsync := fun _ => Resolved (Some "token");
  axios_post := fun _ _ _ => response;
  axios_get := fun _ _ => response
|}.

Definition offline : Env := answering (Rejected (Error "Network Error")).

(** A world in which the storage wrapper holds the token and the secure
    store does not. *)
Definition wrapper_only (response : Settled JsValue) : Env := {|
  storage_getItem := fun _ => Resolved (Some "token");
  SecureStore_getItemAsync := fun _ => Resolved None;
  axios_post := fun _ _ _ => response;
  axios_get := fun _ _ => response
|}.

Definition someUser : JsValue := JObj [("_id", JStr "u1")].

Definition item (id : string) (difficulty : float) : JsValue :=
  JObj [("_id", JStr id); ("content", JStr "huis"); ("difficulty", JNum difficulty)].

Definition queued : Hook := with_questionQueue [item "q1" 2; item "q2" 3] initial.

Definition answering_item (id : string) (difficulty : float) (answer : string) : Hook :=
  with_userAnswer answer (with_currentPractice (item id difficulty) initial).

Definition ok (data : JsValue) : JsValue := JObj [("success", JBool true); ("data", data)].

End Samples.

(** ** The practice component ([app/components/practice/Practice.tsx]) *)

Module PracticeView.
Import Js Effects UsePractice.
Local Open Scope js_scope.

(** What the component renders: the error with its [Try Again] button, the
    activity indicator, or the exercise with the difficulty and complexity it
    passes to the adjuster. *)
Inductive View : Type :=
| ErrorView (message : string)
| LoadingView
| ExerciseView (difficulty complexity : JsValue).

Definition view (h : Hook) : View :=
  let exercise :=
    if loading h || negb (truthy (currentPractice h)) then LoadingView
    else ExerciseView (or_else (prop (currentPractice h) "difficulty") (JNum 1%float))
                      (or_else (prop (currentPractice h) "complexity") (JNum 1%float)) in
  match errorMessage h with
  | Some message => if String.eqb message "" then exercise else ErrorView message
  | None => exercise
  end.

Section Render.
Variable E : Engine.
Variable production : bool.
Variable env : Env.
Variable user : JsValue.
Variable r : Hook.

(** Handle the initial load and empty state: the effect on
    [currentPractice] and [loading]. *)
Definition emptyStateEffect : M Hook unit :=
  function_body (
    if negb (truthy (currentPractice r)) && negb (loading r)
    then background (generatePractice E production env user r false)
    else ret tt).

(** The [Try Again] button of the error view. *)
Definition onTryAgain : M Hook unit :=
  function_body (background (generatePractice E production env user r true)).
End Render.

End PracticeView.

(** ** The practice screen ([app/(tabs)/practice.tsx]): the initial load *)

Module PracticeScreenLoad.
Import Js Effects UsePractice.
Local Open Scope js_scope.

(** The state of the hook with [initialLoadRef.current]. *)
Record Screen : Type := {
  hook : Hook;
  initialLoadRef : bool
}.

Definition mounted : Screen := {| hook := initial; initialLoadRef := false |}.

(** A function of the hook, called from the screen. *)
Definition lift {A : Type} (m : M Hook A) : M Screen A :=
  fun s l =>
    let '(c, h, l') := m (hook s) l in
    (c, {| hook := h; initialLoadRef := initialLoadRef s |}, l').

Section Render.
Variable E : Engine.
Variable production : bool.
Variable env : Env.
Variable user : JsValue.
Variable token : JsValue.
Variable r : Hook.

(** Generate initial practice on mount ONCE if not already loaded: the
    effect on [currentPractice], [loading], [generatePractice], [user] and
    [token].  Its [console.log] lines are left out of the log. *)
Definition initialLoadEffect : M Screen unit :=
  function_body (
    (if negb (truthy user) || negb (truthy token) then return_ else ret tt) ;;
    attempted <- read initialLoadRef ;;
    if negb (truthy (currentPractice r)) && negb (loading r) && negb attempted
    then
      modify (fun s => {| hook := hook s; initialLoadRef := true |}) ;;
      lift (background (generatePractice E production env user r true))
    else ret tt).
End Render.

(** The effect run again and again: each time after the hook state has
    become [before] (whatever happened in between), by the render [render]
    with the [user] and [token] of that moment. *)
Record Rerun : Type := {
  world : Env;
  user : JsValue;
  token : JsValue;
  before : Hook;
  render : Hook
}.

Definition rerun (E : Engine) (production : bool) (acc : Screen * list Event) (x : Rerun)
  : Screen * list Event :=
  let entering := {| hook := before x; initialLoadRef := initialLoadRef (fst acc) |} in
  let '(s', l) :=
    run (initialLoadEffect E production (world x) (user x) (token x) (render x)) entering in
  (s', (snd acc ++ l)%list).

Definition reruns (E : Engine) (production : bool) (xs : list Rerun) (s : Screen)
  : Screen * list Event :=
  fold_left (rerun E production) xs (s, []).

End PracticeScreenLoad.

(** ** The profile screen: what it shows and its retry buttons *)

Module ProfileScreenView.
Import Js Effects ProfileScreen.
Local Open Scope js_scope.

Inductive View : Type :=
| LoadingView
| ErrorView (message : string)
| ProfileView (profile : JsValue)
| UnavailableView.

Definition view (s : Screen) : View :=
  if loading s then LoadingView
  else
    let loaded := if truthy (profile s) then ProfileView (profile s) else UnavailableView in
    match error s with
    | Some message => if String.eqb message "" then loaded else ErrorView message
    | None => loaded
    end.

Section Render.
Variable E : Engine.
Variable production : bool.
Variable env : Env.
Variable user : JsValue.

(** The effect on [user]. *)
Definition mountEffect : M Screen unit :=
  function_body (
    if truthy user then background (fetchUserProfile E production env) else ret tt).

(** The [Retry] button of the error view. *)
Definition onRetry : M Screen unit :=
  function_body (
    setLoading true ;;
    setError None ;;
    if truthy user then background (fetchUserProfile E production env) else ret tt).

(** The [Try Again] button shown when there is no profile. *)
Definition onTryAgain : M Screen unit :=
  function_body (
    setLoading true ;;
    if truthy user then background (fetchUserProfile E production env) else ret tt).
End Render.

End ProfileScreenView.

(** ** Reading a log *)

Module Observations.
Import Effects.

Definition is_alert (ev : Event) : bool :=
  match ev with
  | Alert _ _ => true
  | _ => false
  end.

Definition alerts (l : list Event) : list Event := filter is_alert l.

(** The number of calls started in the background. *)
Definition background_count (l : list Event) : nat := List.length (background_calls l).

(** The requests of an action, those of a background call included. *)
Fixpoint requests_in (ev : Event) : list Event :=
  match ev with
  | Background events => flat_map requests_in events
  | AxiosPost _ _ _ | AxiosGet _ _ => [ev]
  | _ => []
  end.

(** Every request of a log, in the background or not. *)
Definition all_requests (l : list Event) : list Event := flat_map requests_in l.

(** The request carries the token the storage wrapper returns for the
    [AUTH_TOKEN] key. *)
Definition carries_wrapper_token (env : Env) (ev : Event) : Prop :=
  exists token,
    storage_getItem env Config.STORAGE_KEYS.AUTH_TOKEN = Resolved token /\
    authorization_of ev = Some ("Bearer " ++ token_text token)%string.

End Observations.

(** ** The queue: what a call of [submitAnswer] adds *)

Module QueueWording.
Import Js Effects UsePractice Wording.

(** The outcome of the token read followed by the request of [submitAnswer]. *)
Definition submit_outcome (production : bool) (env : Env) (r : Hook) : Settled JsValue :=
  match storage_getItem env Config.STORAGE_KEYS.AUTH_TOKEN with
  | Rejected e => Rejected e
  | Resolved token =>
      axios_post env (Config.API_URL production ++ "/api/practice/submit")
        (JObj [("practiceId", prop (currentPractice r) "_id");
               ("userAnswer", JStr (userAnswer r))])
        ("Bearer " ++ token_text token)
  end.

(** What the call made by the render [r] adds to the queue: the truthy
    [nextPractice] of a response marked successful with data, when there is
    a practice item, the answer is not blank and the request succeeds;
    nothing otherwise. *)
Definition enqueued_by (production : bool) (env : Env) (r : Hook) : list JsValue :=
  if truthy (currentPractice r) && negb (String.eqb (trim (userAnswer r)) "")
  then match submit_outcome production env r with
       | Resolved response => server_nextPractice response
       | Rejected _ => []
       end
  else [].

End QueueWording.

(** ** The queue as the specification words it *)

Module AsStatedQueue.
Import Js.

(** What [submitAnswer] appends: the server-provided [nextPractice], when
    present in the response. *)
Definition appended (response : JsValue) : list JsValue :=
  match opt_prop (opt_prop response "data") "nextPractice" with
  | JUndefined => []
  | nextPractice => [nextPractice]
  end.

End AsStatedQueue.

(** * Properties *)

Import Js Effects.
Local Open Scope string_scope.

(** ** Proof steps shared by the functions *)

Ltac break_match :=
  match goal with
  | |- context [match ?x with _ => _ end] =>
      lazymatch x with
      | context [match _ with _ => _ end] => fail
      | _ => destruct x eqn:?
      end
  end.

Ltac unfold_effects :=
  unfold function_body, try_catch_finally, bind, await, member, call_toFixed,
    throw, return_, ret, modify, emit, read, background.

(** ** [generatePracticeBatch] *)

Section PracticeProperties.
Import UsePractice.
Variable E : Engine.
Variable production : bool.

(** The call ends normally, and the state after it is the state before,
    with [generatingBatch] reset to false when the guard let it through. *)
Lemma generatePracticeBatch_result env user r s l :
  exists l',
    generatePracticeBatch E production env user r s l =
    (Normal tt,
     (if negb (truthy user) || generatingBatch r then s else with_generatingBatch false s),
     l').
Proof.
  unfold generatePracticeBatch, storage_getItem_call, axios_post_call, setGeneratingBatch.
  unfold_effects.
  destruct (negb (truthy user) || generatingBatch r) eqn:Hguard.
  - eexists; reflexivity.
  - repeat break_match; eexists; reflexivity.
Qed.

Lemma generatePracticeBatch_state env user r s :
  state_after (generatePracticeBatch E production env user r) s =
  if negb (truthy user) || generatingBatch r then s else with_generatingBatch false s.
Proof.
  unfold state_after, run.
  destruct (generatePracticeBatch_result env user r s []) as [l' ->].
  reflexivity.
Qed.

(** For any render, also one the call site excludes: the call leaves every
    cell but [generatingBatch] as it was, and resets [generatingBatch] when
    the guard let it through. *)
Lemma generatePracticeBatch_frame env user r s :
  let s' := state_after (generatePracticeBatch E production env user r) s in
  questionQueue s' = questionQueue s /\
  currentPractice s' = currentPractice s /\
  feedback s' = feedback s /\
  userAnswer s' = userAnswer s /\
  errorMessage s' = errorMessage s /\
  with_generatingBatch (generatingBatch s) s' = s /\
  generatingBatch s' =
    (if negb (truthy user) || generatingBatch r then generatingBatch s else false).
Proof.
  intros s'. subst s'. rewrite generatePracticeBatch_state.
  destruct (negb (truthy user) || generatingBatch r); destruct s; cbn; repeat split.
Qed.
End PracticeProperties.

(** ** [generatePractice]: the queue path *)

Section QueuePath.
Import UsePractice.
Variable E : Engine.
Variable production : bool.

(** With a user and a non-empty queue, [generatePractice()] is the queue
    path: the feedback state is cleared, the head is installed, the tail
    becomes the queue, and the batch is started when the tail is short and no
    batch is running. *)
Lemma generatePractice_queue_path env user r s q rest :
  truthy user = true ->
  questionQueue r = q :: rest ->
  let cleared :=
    with_askingQuestion false
      (with_feedbackAnswer JNull
         (with_feedbackQuestion ""
            (with_userAnswer "" (with_feedback None (with_errorMessage None s))))) in
  let served := with_questionQueue rest (with_currentPractice q cleared) in
  run (generatePractice E production env user r false) s =
  if (List.length rest <? 2)%nat && negb (generatingBatch r)
  then (with_loading false (with_generatingBatch false served),
        [Background (log_of (generatePracticeBatch E production env user r) served)])
  else (with_loading false served, []).
Proof.
  intros Huser Hqueue cleared served.
  unfold run, generatePractice, alert, setErrorMessage, setFeedback, setUserAnswer,
    setFeedbackQuestion, setFeedbackAnswer, setAskingQuestion, setCurrentPractice,
    setQuestionQueue, setLoading.
  unfold_effects.
  rewrite Huser, Hqueue.
  cbn [negb andb List.length Nat.ltb Nat.leb nth skipn].
  fold cleared. fold served.
  destruct ((List.length rest <=? 1)%nat && negb (generatingBatch r)) eqn:Hlow.
  - unfold log_of, run.
    destruct (generatePracticeBatch_result E production env user r served []) as [l' Hbatch].
    rewrite Hbatch. rewrite Huser.
    apply andb_prop in Hlow. destruct Hlow as [_ Hidle].
    apply negb_true_iff in Hidle. rewrite Hidle. reflexivity.
  - reflexivity.
Qed.

(** C1 (as amended): for every call of [generatePractice] with
    [forceNew = false] by a logged-in user while the question queue is
    non-empty, the hook sets [currentPractice] to the head of the queue,
    replaces the queue with its tail, issues no HTTP request of its own, and
    starts a background batch generation if and only if the tail has fewer
    than 2 items and no batch generation is already in progress. *)
Theorem generatePractice_serves_queue_head env user r s q rest :
  truthy user = true ->
  questionQueue r = q :: rest ->
  let result := run (generatePractice E production env user r false) s in
  currentPractice (fst result) = q /\
  questionQueue (fst result) = rest /\
  own_requests (snd result) = [] /\
  (background_calls (snd result) <> [] <->
   (List.length rest < 2)%nat /\ generatingBatch r = false) /\
  (forall evs, In (Background evs) (snd result) ->
     exists h, evs = log_of (generatePracticeBatch E production env user r) h).
Proof.
  intros Huser Hqueue result. subst result.
  rewrite (generatePractice_queue_path env user r s q rest Huser Hqueue).
  destruct ((List.length rest <? 2)%nat && negb (generatingBatch r)) eqn:Hlow; cbn.
  - apply andb_prop in Hlow. destruct Hlow as [Hshort Hidle].
    apply Nat.ltb_lt in Hshort. apply negb_true_iff in Hidle.
    repeat split; try discriminate; try assumption.
    intros evs [Hev | []]. inversion Hev. eexists. reflexivity.
  - apply andb_false_iff in Hlow.
    repeat split; try (intros; contradiction).
    + intros [Hshort Hidle]. destruct Hlow as [Hlow | Hlow].
      * apply Nat.ltb_ge in Hlow. lia.
      * rewrite Hidle in Hlow. discriminate.
Qed.
End QueuePath.

Lemma generatePractice_serves_queue_head_witness :
  let r := Samples.queued in
  let result :=
    run (UsePractice.generatePractice Samples.engine false Samples.offline
           Samples.someUser r false) r in
  UsePractice.currentPractice (fst result) = Samples.item "q1" 2 /\
  UsePractice.questionQueue (fst result) = [Samples.item "q2" 3] /\
  own_requests (snd result) = [].
Proof.
  pose proof (generatePractice_serves_queue_head Samples.engine false Samples.offline
                Samples.someUser Samples.queued Samples.queued
                (Samples.item "q1" 2) [Samples.item "q2" 3] eq_refl eq_refl) as H.
  cbv zeta in H. destruct H as (Hcurrent & Hqueue & Hrequests & _).
  cbv zeta. exact (conj Hcurrent (conj Hqueue Hrequests)).
Defined.

(** C1 (as stated) fails: with nobody logged in the call stops at the guard,
    and the queue and the current practice stay as they were. *)
Lemma generatePractice_logged_out_keeps_queue :
  let r := Samples.queued in
  let result :=
    run (UsePractice.generatePractice Samples.engine false Samples.offline JNull r false) r in
  UsePractice.questionQueue r = [Samples.item "q1" 2; Samples.item "q2" 3] /\
  UsePractice.currentPractice (fst result) <> Samples.item "q1" 2 /\
  UsePractice.questionQueue (fst result) <> [Samples.item "q2" 3].
Proof. cbn. repeat split; discriminate. Qed.

(** ** The difficulty trend *)

Lemma SFcompare_antisym (a b : spec_float) :
  SFcompare b a = option_map CompOpp (SFcompare a b).
Proof.
  destruct a as [sa | sa | | sa ma ea], b as [sb | sb | | sb mb eb]; cbn; try reflexivity;
    try (destruct sa; reflexivity); try (destruct sb; reflexivity);
    try (destruct sa, sb; reflexivity).
  assert (Hm : Pos.compare_cont Eq mb ma = CompOpp (Pos.compare_cont Eq ma mb))
    by exact (Pos.compare_antisym ma mb).
  destruct sa, sb; try reflexivity;
    rewrite (Z.compare_antisym ea eb), Hm;
    destruct (ea ?= eb)%Z; cbn; try reflexivity;
    destruct (Pos.compare_cont Eq ma mb); reflexivity.
Qed.

(** Two doubles that compare equal are not ordered. *)
Lemma float_eqb_not_ltb (x y : float) :
  (x =? y)%float = true -> (x <? y)%float = false /\ (y <? x)%float = false.
Proof.
  rewrite eqb_spec, !ltb_spec. unfold SFeqb, SFltb.
  rewrite (SFcompare_antisym (Prim2SF x) (Prim2SF y)).
  destruct (SFcompare (Prim2SF x) (Prim2SF y)) as [[ | | ] | ]; cbn;
    try discriminate; split; reflexivity.
Qed.

(** A double is not both below and above another. *)
Lemma float_ltb_asym (x y : float) :
  (x <? y)%float = true -> (y <? x)%float = false.
Proof.
  rewrite !ltb_spec. unfold SFltb.
  rewrite (SFcompare_antisym (Prim2SF x) (Prim2SF y)).
  destruct (SFcompare (Prim2SF x) (Prim2SF y)) as [[ | | ] | ]; cbn;
    try discriminate; reflexivity.
Qed.

(** Unless one of them is NaN, two doubles are equal or ordered. *)
Lemma float_trichotomy (x y : float) :
  is_nan x = false -> is_nan y = false ->
  (x <? y)%float = true \/ (x =? y)%float = true \/ (y <? x)%float = true.
Proof.
  unfold is_nan. rewrite !eqb_spec, !ltb_spec. unfold SFeqb, SFltb.
  rewrite (SFcompare_antisym (Prim2SF x) (Prim2SF y)).
  destruct (Prim2SF x) as [sx | sx | | sx mx ex], (Prim2SF y) as [sy | sy | | sy my ey];
    cbn; try discriminate; intros _ _;
    repeat match goal with
           | b : bool |- _ => destruct b
           | |- context [(?a ?= ?b)%Z] => destruct (a ?= b)%Z
           | |- context [Pos.compare_cont Eq ?a ?b] => destruct (Pos.compare_cont Eq a b)
           end; cbn; auto.
Qed.

Section DifficultyTrend.
Import UsePractice.
Variable E : Engine.

(** C2: when [currentPractice] has changed to an item whose difficulty [d] is
    truthy and a previous difficulty [p] has been recorded, the effect sets
    [difficultyTrend] to [increasing] if [d > p], to [decreasing] if [d < p]
    and to [stable] if [d = p], and then records [d] as the previous
    difficulty. *)
Theorem difficultyTrendEffect_sets_trend r s d p :
  truthy (currentPractice r) = true ->
  prop (currentPractice r) "difficulty" = JNum d ->
  truthy (JNum d) = true ->
  previousDifficultyRef s = JNum p ->
  let s' := state_after (difficultyTrendEffect E r) s in
  ((p <? d)%float = true -> difficultyTrend s' = increasing) /\
  ((d <? p)%float = true -> difficultyTrend s' = decreasing) /\
  ((d =? p)%float = true -> difficultyTrend s' = stable) /\
  previousDifficultyRef s' = JNum d.
Proof.
  intros Hitem Hdifficulty Htruthy Hprevious s'. subst s'.
  unfold state_after, run, difficultyTrendEffect, setDifficultyTrend,
    greaterThan, lessThan.
  unfold_effects.
  rewrite Hitem, Hdifficulty, Htruthy. cbn [andb]. cbv beta iota.
  rewrite Hprevious. cbv beta iota.
  repeat split.
  - intros Hup. rewrite Hup. reflexivity.
  - intros Hdown. rewrite (float_ltb_asym d p Hdown), Hdown. reflexivity.
  - intros Heq. destruct (float_eqb_not_ltb d p Heq) as [H1 H2].
    rewrite H1, H2. reflexivity.
  - destruct (p <? d)%float; [reflexivity | destruct (d <? p)%float; reflexivity].
Qed.

(** Before anything is recorded the trend is left alone and the difficulty
    is recorded. *)
Lemma difficultyTrendEffect_first_item r s :
  truthy (currentPractice r) = true ->
  truthy (prop (currentPractice r) "difficulty") = true ->
  previousDifficultyRef s = JNull ->
  state_after (difficultyTrendEffect E r) s =
  write_previousDifficultyRef (prop (currentPractice r) "difficulty") s.
Proof.
  intros Hitem Htruthy Hprevious.
  unfold state_after, run, difficultyTrendEffect. unfold_effects.
  rewrite Hitem, Htruthy. cbn [andb]. cbv beta iota. rewrite Hprevious. reflexivity.
Qed.
End DifficultyTrend.

Lemma difficultyTrendEffect_sets_trend_witness :
  let r := UsePractice.with_currentPractice (Samples.item "q2" 3) UsePractice.initial in
  let s := UsePractice.write_previousDifficultyRef (JNum 2) r in
  let s' := state_after (UsePractice.difficultyTrendEffect Samples.engine r) s in
  UsePractice.difficultyTrend s' = UsePractice.increasing /\
  UsePractice.previousDifficultyRef s' = JNum 3.
Proof.
  pose proof (difficultyTrendEffect_sets_trend Samples.engine
                (UsePractice.with_currentPractice (Samples.item "q2" 3) UsePractice.initial)
                (UsePractice.write_previousDifficultyRef (JNum 2)
                   (UsePractice.with_currentPractice (Samples.item "q2" 3)
                      UsePractice.initial))
                3%float 2%float eq_refl eq_refl eq_refl eq_refl) as H.
  cbv zeta in H. destruct H as (Hup & _ & _ & Hrecorded).
  cbv zeta. split; [apply Hup; reflexivity | exact Hrecorded].
Defined.


(** ** [generatePractice]: the fetch path *)

Lemma truthy_not_nullish (v : JsValue) : truthy v = true -> nullish v = false.
Proof. destruct v; cbn; intros H; try reflexivity; discriminate. Qed.

Lemma truthy_opt_prop (o : JsValue) (k : string) :
  truthy (opt_prop o k) = true -> nullish o = false /\ opt_prop o k = prop o k.
Proof.
  unfold opt_prop. destruct (nullish o); cbn; intros H; [discriminate | split; reflexivity].
Qed.

Section FetchPath.
Import UsePractice Wording.
Variable E : Engine.
Variable production : bool.

(** The request [generatePractice] and [generatePracticeBatch] send. *)
Let generate_url : string := Config.API_URL production ++ "/api/practice/generate".
Let generate_body (user : JsValue) : JsValue :=
  JObj [("userId", prop user "_id"); ("random", JBool true); ("batchSize", JNum 5%float)].

(** On a response marked successful with data, a fetching call installs the
    item built from the data. *)
Lemma generatePractice_fetch_success env user r s forceNew token response :
  truthy user = true ->
  forceNew = true \/ questionQueue r = [] ->
  storage_getItem env Config.STORAGE_KEYS.AUTH_TOKEN = Resolved token ->
  axios_post env generate_url (generate_body user) ("Bearer " ++ token_text token)
    = Resolved response ->
  truthy (opt_prop response "success") = true ->
  truthy (opt_prop response "data") = true ->
  let data := prop response "data" in
  currentPractice (state_after (generatePractice E production env user r forceNew) s) =
  JObj [("_id", or_else (prop data "_id") (JStr ""));
        ("content", or_else (prop data "content") (JStr ""));
        ("translation", or_else (prop data "translation") (JStr ""));
        ("type", or_else (prop data "type") (JStr "vocabulary"));
        ("difficulty", or_else (prop data "difficulty") (JNum 1%float));
        ("complexity", or_else (prop data "complexity") (JNum 1%float));
        ("categories",
         if isArray (prop data "categories") then prop data "categories" else JArr []);
        ("questionType", or_else (prop data "questionType") (JStr ""));
        ("options", if isArray (prop data "options") then prop data "options" else JArr [])].
Proof.
  intros Huser Hfetch Htoken Hpost Hsuccess Hdata data.
  destruct (truthy_opt_prop _ _ Hsuccess) as [Hresponse _].
  destruct (truthy_opt_prop _ _ Hdata) as [_ Hdata_eq].
  assert (Hdata' : nullish data = false).
  { apply truthy_not_nullish. subst data. rewrite <- Hdata_eq. exact Hdata. }
  assert (Hqueue : negb forceNew && (0 <? List.length (questionQueue r))%nat = false).
  { destruct Hfetch as [-> | ->]; [reflexivity | apply andb_false_r]. }
  unfold state_after, run, generatePractice, alert, storage_getItem_call, axios_post_call,
    setErrorMessage, setFeedback, setUserAnswer, setFeedbackQuestion, setFeedbackAnswer,
    setAskingQuestion, setCurrentPractice, setQuestionQueue, setLoading.
  unfold_effects.
  rewrite Huser, Hqueue, Htoken, (truthy_not_nullish user Huser).
  cbn [negb]. cbv beta iota.
  unfold generate_url, generate_body in Hpost. rewrite Hpost.
  rewrite Hsuccess, Hdata, Hresponse. cbn [andb]. cbv beta iota.
  fold data. rewrite Hdata'. reflexivity.
Qed.

Lemma or_else_defined (a b : JsValue) : b <> JUndefined -> or_else a b <> JUndefined.
Proof. unfold or_else. destruct a; cbn; try discriminate; try (intros H; exact H);
  intros H; repeat break_match; try discriminate; exact H. Qed.

Lemma or_else_defaults (a b : JsValue) :
  (truthy a = true -> or_else a b = a) /\ (truthy a = false -> or_else a b = b).
Proof. unfold or_else. destruct (truthy a); split; intros H; try discriminate; reflexivity. Qed.

(** C10: when [generatePractice] fetches from the server and the response is
    marked successful with data, the item it installs as [currentPractice]
    has exactly the nine fields, [categories] and [options] are arrays (empty
    when the response fields are not arrays), [difficulty] and [complexity]
    default to 1, [type] to ['vocabulary'], the other string fields to the
    empty string, and no field is [undefined]. *)
Theorem generatePractice_installs_defaulted_item env user r s forceNew token response :
  truthy user = true ->
  forceNew = true \/ questionQueue r = [] ->
  storage_getItem env Config.STORAGE_KEYS.AUTH_TOKEN = Resolved token ->
  axios_post env generate_url (generate_body user) ("Bearer " ++ token_text token)
    = Resolved response ->
  truthy (opt_prop response "success") = true ->
  truthy (opt_prop response "data") = true ->
  let data := prop response "data" in
  let installed :=
    currentPractice (state_after (generatePractice E production env user r forceNew) s) in
  (exists fields, installed = JObj fields /\ map fst fields = PracticeItem_fields) /\
  array_or_empty installed data "categories" /\
  array_or_empty installed data "options" /\
  defaults_to installed data "difficulty" (JNum 1%float) /\
  defaults_to installed data "complexity" (JNum 1%float) /\
  defaults_to installed data "type" (JStr "vocabulary") /\
  defaults_to installed data "_id" (JStr "") /\
  defaults_to installed data "content" (JStr "") /\
  defaults_to installed data "translation" (JStr "") /\
  defaults_to installed data "questionType" (JStr "") /\
  (forall k, In k PracticeItem_fields -> prop installed k <> JUndefined).
Proof.
  intros Huser Hfetch Htoken Hpost Hsuccess Hdata data installed.
  subst installed.
  rewrite (generatePractice_fetch_success env user r s forceNew token response
             Huser Hfetch Htoken Hpost Hsuccess Hdata).
  fold data. unfold defaults_to, array_or_empty. cbn [prop assoc String.eqb Ascii.eqb Bool.eqb].
  repeat match goal with |- _ /\ _ => split end;
    try apply or_else_defaults.
  - eexists. split; reflexivity.
  - destruct (isArray (prop data "categories")) eqn:Ha; [exact Ha | reflexivity].
  - intros ->. reflexivity.
  - intros ->. reflexivity.
  - destruct (isArray (prop data "options")) eqn:Ha; [exact Ha | reflexivity].
  - intros ->. reflexivity.
  - intros ->. reflexivity.
  - intros k Hk. cbn in Hk.
    repeat (destruct Hk as [<- | Hk]; [cbn [prop assoc String.eqb Ascii.eqb Bool.eqb];
      try (apply or_else_defined; discriminate);
      try (destruct (isArray (prop data _)) eqn:Ha;
           [intros Hu; rewrite Hu in Ha; discriminate | discriminate]) | ]).
    contradiction.
Qed.
End FetchPath.

Lemma generatePractice_installs_defaulted_item_witness :
  let response := Samples.ok (JObj [("content", JStr "fiets"); ("options", JStr "none")]) in
  let installed :=
    UsePractice.currentPractice
      (state_after
         (UsePractice.generatePractice Samples.engine false
            (Samples.answering (Resolved response)) Samples.someUser
            UsePractice.initial true)
         UsePractice.initial) in
  prop installed "content" = JStr "fiets" /\
  prop installed "options" = JArr [] /\
  prop installed "difficulty" = JNum 1 /\
  prop installed "type" = JStr "vocabulary".
Proof.
  pose proof (generatePractice_installs_defaulted_item Samples.engine false
                (Samples.answering
                   (Resolved (Samples.ok (JObj [("content", JStr "fiets");
                                                ("options", JStr "none")]))))
                Samples.someUser UsePractice.initial UsePractice.initial true
                (Some "token")
                (Samples.ok (JObj [("content", JStr "fiets"); ("options", JStr "none")]))
                eq_refl (or_introl eq_refl) eq_refl eq_refl eq_refl eq_refl) as H.
  cbv zeta in H.
  destruct H as (_ & _ & (_ & _ & Hoptions) & (_ & Hdifficulty) & _ & (_ & Htype)
                 & _ & (Hcontent & _) & _).
  cbv zeta. split; [ | split; [ | split ]].
  - apply Hcontent. reflexivity.
  - apply Hoptions. reflexivity.
  - apply Hdifficulty. reflexivity.
  - apply Htype. reflexivity.
Defined.

(** ** [submitAnswer] *)

Lemma not_blank (answer : string) :
  trim answer <> "" -> String.eqb answer "" || String.eqb (trim answer) "" = false.
Proof.
  intros Hblank. apply orb_false_iff. split.
  - apply String.eqb_neq. intros ->. apply Hblank. reflexivity.
  - apply String.eqb_neq. exact Hblank.
Qed.

Section SubmitAnswer.
Import UsePractice Wording.
Variable E : Engine.
Variable production : bool.

Let submit_url : string := Config.API_URL production ++ "/api/practice/submit".
Let submit_body (r : Hook) : JsValue :=
  JObj [("practiceId", prop (currentPractice r) "_id"); ("userAnswer", JStr (userAnswer r))].

(** With a practice item, a non-blank answer and a response from the server,
    [submitAnswer] appends the next practice the response carries and shows
    the verdict of the response. *)
Lemma submitAnswer_response env r s token response :
  truthy (currentPractice r) = true ->
  trim (userAnswer r) <> "" ->
  storage_getItem env Config.STORAGE_KEYS.AUTH_TOKEN = Resolved token ->
  axios_post env submit_url (submit_body r) ("Bearer " ++ token_text token)
    = Resolved response ->
  let s' := state_after (submitAnswer E production env r) s in
  questionQueue s' = (questionQueue s ++ server_nextPractice response)%list /\
  exists text, feedback s' = Some {| isCorrect := server_verdict response;
                                     feedbackText := text |}.
Proof.
  intros Hitem Hanswer Htoken Hpost s'. subst s'.
  unfold state_after, run, submitAnswer, alert, storage_getItem_call, axios_post_call,
    setErrorMessage, setFeedback, setLoading, setQuestionQueueWith.
  unfold_effects.
  rewrite Hitem, (not_blank _ Hanswer), Htoken, (truthy_not_nullish _ Hitem).
  cbn [negb]. cbv beta iota.
  unfold submit_url, submit_body in Hpost. rewrite Hpost.
  unfold server_nextPractice, server_verdict.
  destruct (truthy (opt_prop response "success")) eqn:Hsuccess; cbn [andb]; cbv beta iota;
    [ | split; [cbn; symmetry; apply app_nil_r | eexists; reflexivity]].
  destruct (truthy (opt_prop response "data")) eqn:Hdata; cbn [andb]; cbv beta iota;
    [ | split; [cbn; symmetry; apply app_nil_r | eexists; reflexivity]].
  destruct (truthy_opt_prop _ _ Hsuccess) as [Hresponse _].
  destruct (truthy_opt_prop _ _ Hdata) as [_ Hdata_eq].
  rewrite Hdata_eq in Hdata.
  rewrite Hresponse, (truthy_not_nullish _ Hdata). cbv beta iota.
  destruct (truthy (prop (prop response "data") "nextPractice")) eqn:Hnext;
    cbv beta iota;
    (destruct (truthy (prop (prop response "data") "evaluation")) eqn:Hevaluation;
     cbn [andb]; cbv beta iota;
     [rewrite (truthy_not_nullish _ Hevaluation); cbv beta iota | ]);
    (split; [cbn; try reflexivity; symmetry; apply app_nil_r | eexists; reflexivity]).
Qed.
End SubmitAnswer.

Section Frames.
Import UsePractice.
Variable E : Engine.
Variable production : bool.

(** What [generatePractice] leaves alone: the cells of the difficulty
    display, and the queue unless it serves from it. *)
Lemma generatePractice_frame env user r s forceNew :
  let s' := state_after (generatePractice E production env user r forceNew) s in
  difficultyChange s' = difficultyChange s /\
  difficultyTrend s' = difficultyTrend s /\
  previousDifficultyRef s' = previousDifficultyRef s /\
  adjusting s' = adjusting s /\
  questionQueue s' =
    (if truthy user && (negb forceNew && (0 <? List.length (questionQueue r))%nat)
     then skipn 1 (questionQueue r)
     else questionQueue s).
Proof.
  intros s'. subst s'.
  unfold state_after, run, generatePractice, alert, storage_getItem_call, axios_post_call,
    setErrorMessage, setFeedback, setUserAnswer, setFeedbackQuestion, setFeedbackAnswer,
    setAskingQuestion, setCurrentPractice, setQuestionQueue, setLoading.
  unfold function_body, try_catch_finally, bind, await, member, throw, return_, ret,
    modify, emit.
  destruct (truthy user) eqn:Huser; cbn [negb andb]; cbv beta iota.
  2: { repeat split. }
  destruct (negb forceNew && (0 <? List.length (questionQueue r))%nat) eqn:Hserve;
    cbv beta iota.
  - destruct ((List.length (skipn 1 (questionQueue r)) <? 2)%nat && negb (generatingBatch r)).
    + unfold background.
      match goal with
      | |- context [generatePracticeBatch E production env user r ?h []] =>
          destruct (generatePracticeBatch_result E production env user r h []) as [l' ->]
      end.
      destruct (negb (truthy user) || generatingBatch r); repeat split.
    + repeat split.
  - repeat break_match; repeat split.
Qed.
End Frames.

(** ** The question queue *)

Section Queue.
Import UsePractice Wording Session.
Variable E : Engine.
Variable production : bool.

(** Whatever the world answers, [submitAnswer] only appends to the queue, and
    what it appends is the next practice of the response it received. *)
Lemma submitAnswer_appends env r s :
  exists added,
    questionQueue (state_after (submitAnswer E production env r) s)
    = (questionQueue s ++ added)%list /\
    (added = [] \/
     exists url body authorization response,
       axios_post env url body authorization = Resolved response /\
       added = server_nextPractice response).
Proof.
  destruct (truthy (currentPractice r)) eqn:Hitem.
  2: { exists []. split; [ | left; reflexivity].
       unfold state_after, run, submitAnswer, alert, setErrorMessage, setLoading.
       unfold_effects. rewrite Hitem. cbn. symmetry. apply app_nil_r. }
  destruct (String.eqb (userAnswer r) "" || String.eqb (trim (userAnswer r)) "") eqn:Hblank.
  { exists []. split; [ | left; reflexivity].
    unfold state_after, run, submitAnswer, alert, setErrorMessage, setLoading.
    unfold_effects. rewrite Hitem, Hblank. cbn. symmetry. apply app_nil_r. }
  assert (Hanswer : trim (userAnswer r) <> "").
  { apply orb_false_iff in Hblank. destruct Hblank as [_ Hblank].
    apply String.eqb_neq. exact Hblank. }
  destruct (storage_getItem env Config.STORAGE_KEYS.AUTH_TOKEN) as [token | e] eqn:Htoken.
  2: { exists []. split; [ | left; reflexivity].
       unfold state_after, run, submitAnswer, alert, storage_getItem_call,
         setErrorMessage, setLoading.
       unfold_effects. rewrite Hitem, Hblank, Htoken. cbn. symmetry. apply app_nil_r. }
  destruct (axios_post env (Config.API_URL production ++ "/api/practice/submit")
              (JObj [("practiceId", prop (currentPractice r) "_id");
                     ("userAnswer", JStr (userAnswer r))])
              ("Bearer " ++ token_text token)) as [response | e] eqn:Hpost.
  - exists (server_nextPractice response). split.
    + apply (submitAnswer_response E production env r s token response
               Hitem Hanswer Htoken Hpost).
    + right. do 4 eexists. split; [exact Hpost | reflexivity].
  - exists []. split; [ | left; reflexivity].
    unfold state_after, run, submitAnswer, alert, storage_getItem_call, axios_post_call,
      setErrorMessage, setLoading.
    unfold_effects.
    rewrite Hitem, Hblank, Htoken, (truthy_not_nullish _ Hitem). cbn [negb]. cbv beta iota.
    rewrite Hpost. cbn. symmetry. apply app_nil_r.
Qed.

(** [generatePractice] either leaves the queue as the live state has it, or
    takes the front element of the queue it sees and presents it. *)
Lemma generatePractice_pops_front env user r s forceNew :
  let s' := state_after (generatePractice E production env user r forceNew) s in
  (serves_from_queue user r && negb forceNew = false /\ questionQueue s' = questionQueue s) \/
  (serves_from_queue user r && negb forceNew = true /\
   questionQueue r = currentPractice s' :: questionQueue s').
Proof.
  intros s'. subst s'. unfold serves_from_queue.
  destruct (generatePractice_frame E production env user r s forceNew)
    as (_ & _ & _ & _ & Hqueue).
  destruct (truthy user) eqn:Huser; [ | left; split; [reflexivity | exact Hqueue]].
  destruct forceNew; [left; split; [apply andb_false_r | exact Hqueue] | ].
  destruct (questionQueue r) as [ | q rest] eqn:Hr;
    [left; split; [reflexivity | exact Hqueue] | ].
  right. split; [reflexivity | ].
  unfold state_after.
  rewrite (generatePractice_queue_path E production env user r s q rest Huser Hr).
  destruct ((List.length rest <? 2)%nat && negb (generatingBatch r)); reflexivity.
Qed.

(** One action keeps the queue law of a session. *)
Lemma step_keeps_fifo user front t a :
  (presented t ++ questionQueue (state t) = front ++ enqueued t)%list ->
  (presented (step E production user t a) ++ questionQueue (state (step E production user t a))
   = front ++ enqueued (step E production user t a))%list.
Proof.
  intros Hlaw. destruct a as [env | env | env]; cbn [step state presented enqueued].
  - destruct (submitAnswer_appends env (state t) (state t)) as (added & Hadded & _).
    rewrite Hadded, skipn_app, skipn_all, Nat.sub_diag. cbn [skipn app].
    rewrite !app_assoc, Hlaw. reflexivity.
  - destruct (generatePractice_pops_front env user (state t) (state t) false)
      as [[Hserve Hqueue] | [Hserve Hqueue]];
      rewrite andb_true_r in Hserve; rewrite Hserve.
    + rewrite app_nil_r, Hqueue. exact Hlaw.
    + rewrite <- app_assoc. cbn [app]. rewrite <- Hqueue. exact Hlaw.
  - destruct (generatePractice_pops_front env user (state t) (state t) true)
      as [[_ Hqueue] | [Hserve _]].
    + rewrite Hqueue. exact Hlaw.
    + rewrite andb_false_r in Hserve. discriminate.
Qed.

(** The queue after [submitAnswer], whatever the world answers. *)
Lemma submitAnswer_queue env r s :
  questionQueue (state_after (submitAnswer E production env r) s)
  = (questionQueue s ++ QueueWording.enqueued_by production env r)%list.
Proof.
  unfold QueueWording.enqueued_by, QueueWording.submit_outcome.
  destruct (truthy (currentPractice r)) eqn:Hitem; cbn [andb].
  2: { unfold state_after, run, submitAnswer, alert, setErrorMessage, setLoading.
       unfold_effects. rewrite Hitem. cbn. symmetry. apply app_nil_r. }
  destruct (String.eqb (trim (userAnswer r)) "") eqn:Hblank; cbn [negb].
  { unfold state_after, run, submitAnswer, alert, setErrorMessage, setLoading.
    unfold_effects. rewrite Hitem, Hblank, orb_true_r. cbn. symmetry. apply app_nil_r. }
  assert (Hanswer : trim (userAnswer r) <> "") by (apply String.eqb_neq; exact Hblank).
  destruct (storage_getItem env Config.STORAGE_KEYS.AUTH_TOKEN) as [token | e] eqn:Htoken.
  2: { unfold state_after, run, submitAnswer, alert, storage_getItem_call,
         setErrorMessage, setLoading.
       unfold_effects. rewrite Hitem, (not_blank _ Hanswer), Htoken. cbn.
       symmetry. apply app_nil_r. }
  destruct (axios_post env (Config.API_URL production ++ "/api/practice/submit")
              (JObj [("practiceId", prop (currentPractice r) "_id");
                     ("userAnswer", JStr (userAnswer r))])
              ("Bearer " ++ token_text token)) as [response | e] eqn:Hpost.
  - apply (submitAnswer_response E production env r s token response
             Hitem Hanswer Htoken Hpost).
  - unfold state_after, run, submitAnswer, alert, storage_getItem_call, axios_post_call,
      setErrorMessage, setLoading.
    unfold_effects.
    rewrite Hitem, (not_blank _ Hanswer), Htoken, (truthy_not_nullish _ Hitem).
    cbn [negb]. cbv beta iota.
    rewrite Hpost. cbn. symmetry. apply app_nil_r.
Qed.

(** C6 (as amended): the question queue is first-in first-out.
    [submitAnswer] appends the server-provided [nextPractice] at the back of
    the queue exactly when the call passes its guards, the request succeeds
    and the response is marked successful with data and carries a truthy
    [nextPractice], and leaves every queued item in place and in order in
    every case; [generatePractice] removes the front element, which it
    presents, exactly when it serves from the queue (a user, [forceNew]
    false, a non-empty queue) and leaves the queue as it is otherwise; so
    over a session the items presented from the queue, followed by what is
    still queued, are the items queued at the start followed by the enqueued
    ones, in the order they were enqueued. *)
Theorem questionQueue_fifo :
  (forall env r s,
     questionQueue (state_after (submitAnswer E production env r) s)
     = (questionQueue s ++ QueueWording.enqueued_by production env r)%list) /\
  (forall env user r s forceNew,
     let s' := state_after (generatePractice E production env user r forceNew) s in
     if serves_from_queue user r && negb forceNew
     then questionQueue r = currentPractice s' :: questionQueue s'
     else questionQueue s' = questionQueue s) /\
  (forall user t env,
     enqueued (step E production user t (Submit env))
     = (enqueued t ++ QueueWording.enqueued_by production env (state t))%list /\
     presented (step E production user t (Submit env)) = presented t /\
     presented (step E production user t (Next env))
     = (presented t
        ++ (if serves_from_queue user (state t)
            then firstn 1 (questionQueue (state t))
            else []))%list /\
     enqueued (step E production user t (Next env)) = enqueued t) /\
  (forall user actions s,
     let t := session E production user actions s in
     (presented t ++ questionQueue (state t) = questionQueue s ++ enqueued t)%list).
Proof.
  split; [exact submitAnswer_queue | split; [ | split]].
  - intros env user r s forceNew s'. subst s'.
    destruct (generatePractice_pops_front env user r s forceNew)
      as [[-> H] | [-> H]]; exact H.
  - intros user t env. cbn [step state presented enqueued].
    repeat split.
    + rewrite submitAnswer_queue, skipn_app, skipn_all, Nat.sub_diag. reflexivity.
    + destruct (generatePractice_pops_front env user (state t) (state t) false)
        as [[Hserve _] | [Hserve Hqueue]];
        rewrite andb_true_r in Hserve; rewrite Hserve; [reflexivity | ].
      rewrite Hqueue. reflexivity.
  - intros user actions s t. subst t. unfold session.
    set (start := {| state := s; presented := []; enqueued := [] |}).
    assert (Hstart : (presented start ++ questionQueue (state start)
                      = questionQueue s ++ enqueued start)%list).
    { cbn. symmetry. apply app_nil_r. }
    clearbody start. revert start Hstart.
    induction actions as [ | a actions IH]; intros start Hstart; cbn [fold_left].
    + exact Hstart.
    + apply IH. apply step_keeps_fifo. exact Hstart.
Qed.
End Queue.

(** A session that starts with two queued questions: an answer whose response
    brings a third, then three times the next question. *)
Example session_presents_in_order :
  let next := Samples.item "q3" 4 in
  let response := Samples.ok (JObj [("nextPractice", next)]) in
  let start := UsePractice.with_userAnswer "huis"
                 (UsePractice.with_currentPractice (Samples.item "q0" 1) Samples.queued) in
  let t := Session.session Samples.engine false Samples.someUser
             [Session.Submit (Samples.answering (Resolved response));
              Session.Next Samples.offline; Session.Next Samples.offline;
              Session.Next Samples.offline]
             start in
  Session.presented t = [Samples.item "q1" 2; Samples.item "q2" 3; next] /\
  Session.enqueued t = [next] /\
  UsePractice.questionQueue (Session.state t) = [].
Proof. vm_compute. repeat split. Qed.

(** C6 (as stated) fails: a next practice that is present in a response not
    marked successful is not appended. *)
Lemma submitAnswer_drops_nextPractice_of_unsuccessful_response :
  let response :=
    JObj [("success", JBool false);
          ("data", JObj [("nextPractice", Samples.item "q3" 4)])] in
  let r := Samples.answering_item "q0" 1 "huis" in
  let after :=
    UsePractice.questionQueue
      (state_after
         (UsePractice.submitAnswer Samples.engine false
            (Samples.answering (Resolved response)) r) Samples.queued) in
  AsStatedQueue.appended response = [Samples.item "q3" 4] /\
  after = UsePractice.questionQueue Samples.queued /\
  after <> (UsePractice.questionQueue Samples.queued ++ AsStatedQueue.appended response)%list.
Proof. vm_compute. repeat split. discriminate. Qed.

(** ** The verdict on an answer *)

Section Verdict.
Import UsePractice Wording.
Variable E : Engine.
Variable production : bool.

(** C4 (as amended): answer grading is performed server-side.  For every
    call of [submitAnswer] with a current practice item and a non-blank
    answer that receives a response from the backend, the displayed verdict
    [feedback.isCorrect] is the boolean coercion of the [evaluation.isCorrect]
    field of the response when the response is marked successful with data
    and carries an evaluation, and false otherwise; it is a function of the
    response alone, so the answer is never compared with the practice content
    locally. *)
Theorem submitAnswer_verdict_from_server env r s token response :
  truthy (currentPractice r) = true ->
  trim (userAnswer r) <> "" ->
  storage_getItem env Config.STORAGE_KEYS.AUTH_TOKEN = Resolved token ->
  axios_post env (Config.API_URL production ++ "/api/practice/submit")
    (JObj [("practiceId", prop (currentPractice r) "_id");
           ("userAnswer", JStr (userAnswer r))])
    ("Bearer " ++ token_text token) = Resolved response ->
  let s' := state_after (submitAnswer E production env r) s in
  option_map isCorrect (feedback s') = Some (server_verdict response) /\
  server_verdict response =
    (if truthy (opt_prop response "success") && truthy (opt_prop response "data")
     then
       let evaluation := prop (prop response "data") "evaluation" in
       if truthy evaluation then truthy (prop evaluation "isCorrect") else false
     else false).
Proof.
  intros Hitem Hanswer Htoken Hpost s'. subst s'.
  destruct (submitAnswer_response E production env r s token response
              Hitem Hanswer Htoken Hpost) as (_ & text & ->).
  split; [reflexivity | ].
  unfold server_verdict.
  destruct (truthy (opt_prop response "success") && truthy (opt_prop response "data"));
    cbn [andb]; [ | reflexivity].
  destruct (truthy (prop (prop response "data") "evaluation")); reflexivity.
Qed.

(** Two calls that receive the same response show the same verdict, whatever
    the practice items and the answers. *)
Corollary submitAnswer_verdict_ignores_content env1 env2 r1 r2 s1 s2 token1 token2 response :
  truthy (currentPractice r1) = true -> trim (userAnswer r1) <> "" ->
  truthy (currentPractice r2) = true -> trim (userAnswer r2) <> "" ->
  storage_getItem env1 Config.STORAGE_KEYS.AUTH_TOKEN = Resolved token1 ->
  storage_getItem env2 Config.STORAGE_KEYS.AUTH_TOKEN = Resolved token2 ->
  axios_post env1 (Config.API_URL production ++ "/api/practice/submit")
    (JObj [("practiceId", prop (currentPractice r1) "_id");
           ("userAnswer", JStr (userAnswer r1))])
    ("Bearer " ++ token_text token1) = Resolved response ->
  axios_post env2 (Config.API_URL production ++ "/api/practice/submit")
    (JObj [("practiceId", prop (currentPractice r2) "_id");
           ("userAnswer", JStr (userAnswer r2))])
    ("Bearer " ++ token_text token2) = Resolved response ->
  option_map isCorrect (feedback (state_after (submitAnswer E production env1 r1) s1)) =
  option_map isCorrect (feedback (state_after (submitAnswer E production env2 r2) s2)).
Proof.
  intros Hitem1 Hanswer1 Hitem2 Hanswer2 Htoken1 Htoken2 Hpost1 Hpost2.
  destruct (submitAnswer_response E production env1 r1 s1 token1 response
              Hitem1 Hanswer1 Htoken1 Hpost1) as (_ & text1 & ->).
  destruct (submitAnswer_response E production env2 r2 s2 token2 response
              Hitem2 Hanswer2 Htoken2 Hpost2) as (_ & text2 & ->).
  reflexivity.
Qed.
End Verdict.

Lemma submitAnswer_verdict_from_server_witness :
  let response :=
    Samples.ok (JObj [("evaluation", JObj [("isCorrect", JNum 1); ("feedback", JStr "Goed")])]) in
  let r := Samples.answering_item "q1" 2 " huis " in
  option_map UsePractice.isCorrect
    (UsePractice.feedback
       (state_after
          (UsePractice.submitAnswer Samples.engine false
             (Samples.answering (Resolved response)) r) r))
  = Some true.
Proof.
  pose proof (submitAnswer_verdict_from_server Samples.engine false
                (Samples.answering
                   (Resolved (Samples.ok (JObj [("evaluation",
                      JObj [("isCorrect", JNum 1); ("feedback", JStr "Goed")])]))))
                (Samples.answering_item "q1" 2 " huis ")
                (Samples.answering_item "q1" 2 " huis ")
                (Some "token")
                (Samples.ok (JObj [("evaluation",
                      JObj [("isCorrect", JNum 1); ("feedback", JStr "Goed")])]))
                eq_refl ltac:(vm_compute; discriminate) eq_refl eq_refl) as H.
  cbv zeta in H. destruct H as [Hverdict _]. cbv zeta. exact Hverdict.
Defined.

(** C4 (as stated) fails: a response that is not marked successful shows the
    verdict false even when its evaluation says the answer is correct. *)
Lemma submitAnswer_unsuccessful_response_is_incorrect :
  let response :=
    JObj [("success", JBool false);
          ("data", JObj [("evaluation", JObj [("isCorrect", JBool true)])])] in
  let r := Samples.answering_item "q1" 2 "huis" in
  AsStated.verdict response = true /\
  option_map UsePractice.isCorrect
    (UsePractice.feedback
       (state_after
          (UsePractice.submitAnswer Samples.engine false
             (Samples.answering (Resolved response)) r) r))
  <> Some (AsStated.verdict response).
Proof. vm_compute. split; [reflexivity | discriminate]. Qed.

(** ** The profile *)

Section Profile.
Variable E : Engine.
Variable production : bool.

(** C7: [fetchUserProfile] stores the [data] of the response in [profile]
    exactly when the response marks success; when success is false it sets
    the error and leaves [profile] unchanged; when the request (or the read
    of the token, or the read of the response) throws it sets the error
    message of the [catch] clause and leaves [profile] unchanged; and
    [loading] is false once the call completes. *)
Theorem fetchUserProfile_outcomes env s :
  let s' := state_after (UseProfile.fetchUserProfile E production env) s in
  let failed :=
    UseProfile.profile s' = UseProfile.profile s /\
    UseProfile.error s' = Some "Failed to load profile. Please try again." in
  UseProfile.loading s' = false /\
  match storage_getItem env Config.STORAGE_KEYS.AUTH_TOKEN with
  | Rejected _ => failed
  | Resolved token =>
      match axios_get env (Config.API_URL production ++ "/api/user/profile")
              ("Bearer " ++ token_text token) with
      | Rejected _ => failed
      | Resolved response =>
          if nullish response then failed
          else if truthy (prop response "success")
               then UseProfile.profile s' = prop response "data"
               else UseProfile.profile s' = UseProfile.profile s /\
                    UseProfile.error s' = Some "Failed to load profile"
      end
  end.
Proof.
  intros s' failed. subst s' failed.
  unfold state_after, run, UseProfile.fetchUserProfile, UseProfile.setLoading,
    UseProfile.setError, UseProfile.setProfile, UseProfile.setSelectedLanguage.
  unfold_effects.
  destruct (storage_getItem env Config.STORAGE_KEYS.AUTH_TOKEN) as [token | e];
    cbv beta iota; [ | cbn; repeat split].
  destruct (axios_get env (Config.API_URL production ++ "/api/user/profile")
              ("Bearer " ++ token_text token)) as [response | e];
    cbv beta iota; [ | cbn; repeat split].
  destruct (nullish response) eqn:Hresponse; cbv beta iota; [cbn; repeat split | ].
  destruct (truthy (prop response "success")) eqn:Hsuccess; cbv beta iota;
    [ | cbn; repeat split].
  repeat break_match; cbn; repeat split.
Qed.

(** Every request of the hook's [fetchUserProfile] carries the token read
    through the storage wrapper under the [AUTH_TOKEN] key. *)
Lemma fetchUserProfile_reads_through_wrapper env s :
  let log := log_of (UseProfile.fetchUserProfile E production env) s in
  exists rest,
    log = StorageGetItem Config.STORAGE_KEYS.AUTH_TOKEN :: rest /\
    (own_requests rest = [] \/
     exists token,
       storage_getItem env Config.STORAGE_KEYS.AUTH_TOKEN = Resolved token /\
       map authorization_of (own_requests rest) = [Some ("Bearer " ++ token_text token)]).
Proof.
  intros log. subst log.
  unfold log_of, run, UseProfile.fetchUserProfile, UseProfile.setLoading,
    UseProfile.setError, UseProfile.setProfile, UseProfile.setSelectedLanguage.
  unfold_effects.
  destruct (storage_getItem env Config.STORAGE_KEYS.AUTH_TOKEN) as [token | e];
    cbv beta iota; [ | eexists; split; [reflexivity | left; reflexivity]].
  repeat break_match; cbn; eexists; (split; [reflexivity | ]);
    try (left; reflexivity); right; eexists; split; reflexivity.
Qed.

(** C5 fails on the profile screen: its [fetchUserProfile] reads the token
    with [SecureStore.getItemAsync], never through [storage.getItem], and the
    token its request carries is the one the secure store returned. *)
Theorem ProfileScreen_reads_SecureStore_directly env s :
  let log := log_of (ProfileScreen.fetchUserProfile E production env) s in
  exists rest,
    log = SecureStoreGetItemAsync Config.STORAGE_KEYS.AUTH_TOKEN :: rest /\
    filter is_wrapper_read log = [] /\
    (own_requests rest = [] \/
     exists token,
       SecureStore_getItemAsync env Config.STORAGE_KEYS.AUTH_TOKEN = Resolved token /\
       map authorization_of (own_requests rest) = [Some ("Bearer " ++ token_text token)]).
Proof.
  intros log. subst log.
  unfold log_of, run, ProfileScreen.fetchUserProfile, ProfileScreen.setLoading,
    ProfileScreen.setError, ProfileScreen.setProfile.
  unfold_effects.
  destruct (SecureStore_getItemAsync env Config.STORAGE_KEYS.AUTH_TOKEN) as [token | e];
    cbv beta iota; [ | eexists; split; [reflexivity | split; [reflexivity | left; reflexivity]]].
  repeat break_match; cbn; eexists; (split; [reflexivity | split; [reflexivity | ]]);
    try (left; reflexivity); right; eexists; split; reflexivity.
Qed.
End Profile.

(** Where the wrapper holds the token and the secure store does not, the
    hook sends the token and the screen sends [Bearer null]. *)
Example profile_requests_differ :
  let world := Samples.wrapper_only (Resolved (Samples.ok JNull)) in
  log_of (UseProfile.fetchUserProfile Samples.engine false world) UseProfile.initial
  = [StorageGetItem "desirabledifficult_auth_token";
     AxiosGet "http://localhost:3000/api/user/profile" "Bearer token";
     ConsoleError "Error fetching profile:"
       (Error "Cannot read properties of null (reading 'user')")] /\
  log_of (ProfileScreen.fetchUserProfile Samples.engine false world) ProfileScreen.initial
  = [SecureStoreGetItemAsync "desirabledifficult_auth_token";
     AxiosGet "http://localhost:3000/api/user/profile" "Bearer null"].
Proof. vm_compute. split; reflexivity. Qed.

(** ** Formatting a number *)

Lemma digit_char_is_digit (d : Z) : (0 <= d < 10)%Z -> is_digit (digit_char d) = true.
Proof.
  intros Hd.
  assert (Hcases : (d = 0 \/ d = 1 \/ d = 2 \/ d = 3 \/ d = 4 \/ d = 5 \/ d = 6 \/ d = 7
                    \/ d = 8 \/ d = 9)%Z) by lia.
  repeat (destruct Hcases as [-> | Hcases]; [reflexivity | ]). subst d. reflexivity.
Qed.

Lemma digits_aux_starts_with_digit (fuel : nat) :
  forall n acc, starts_with_digit (digits_aux (S fuel) n acc).
Proof.
  induction fuel as [ | fuel IH]; intros n acc.
  - cbn [digits_aux].
    assert (Hd : is_digit (digit_char (n mod 10)) = true)
      by (apply digit_char_is_digit; apply Z.mod_pos_bound; lia).
    destruct (n <? 10)%Z; do 2 eexists; split; try reflexivity; exact Hd.
  - change (digits_aux (S (S fuel)) n acc)
      with (let acc' := String (digit_char (n mod 10)) acc in
            if (n <? 10)%Z then acc' else digits_aux (S fuel) (n / 10) acc').
    cbv zeta. destruct (n <? 10)%Z.
    + do 2 eexists. split; [reflexivity | ].
      apply digit_char_is_digit. apply Z.mod_pos_bound. lia.
    + apply IH.
Qed.

Lemma digits_starts_with_digit (n : Z) : starts_with_digit (digits n).
Proof. apply digits_aux_starts_with_digit. Qed.

Lemma append_starts_with_digit (a b : string) :
  starts_with_digit a -> starts_with_digit (a ++ b).
Proof.
  intros (c & rest & -> & Hc). exists c, (rest ++ b). split; [reflexivity | exact Hc].
Qed.

Lemma fixed_digits_starts_with_digit (f : nat) (n : Z) :
  starts_with_digit (fixed_digits f n).
Proof.
  destruct f; cbn [fixed_digits].
  - apply digits_starts_with_digit.
  - apply append_starts_with_digit. apply digits_starts_with_digit.
Qed.

Lemma toString_large_starts_with_digit (X : Z) : starts_with_digit (toString_large X).
Proof.
  unfold toString_large.
  destruct (digits_starts_with_digit
              (shortest_roundtrip 17 1 (Z.of_nat (String.length (digits X))) X
                 (float_of_Z X))) as (c & rest & -> & Hc).
  destruct (strip_trailing_zeros rest); do 2 eexists; split; try reflexivity; exact Hc.
Qed.

Lemma no_minus_before_digit (s : string) :
  starts_with_digit s -> String.prefix "-" s = false.
Proof.
  intros (c & rest & -> & Hc). cbn [String.prefix].
  destruct (ascii_dec "-" c) as [<- | _]; [discriminate Hc | reflexivity].
Qed.

(** The text [toFixed] produces starts with a minus sign exactly for the
    numbers below zero. *)
Lemma toFixed_minus_sign (f : nat) (x : float) :
  String.prefix "-" (toFixed f x) = (x <? 0)%float.
Proof.
  rewrite ltb_spec. unfold toFixed, SFltb.
  change (Prim2SF 0) with (S754_zero false).
  destruct (Prim2SF x) as [s | s | | s m e]; cbn [SFcompare].
  - apply no_minus_before_digit. apply fixed_digits_starts_with_digit.
  - destruct s; reflexivity.
  - reflexivity.
  - destruct s; [cbn [String.append String.prefix];
                 destruct (ascii_dec "-" "-") as [_ | Hne];
                 [destruct (if at_least_1e21 m e then _ else _); reflexivity
                 | exfalso; apply Hne; reflexivity] | ].
    cbn [String.append]. apply no_minus_before_digit.
    destruct (at_least_1e21 m e);
      [apply toString_large_starts_with_digit | apply fixed_digits_starts_with_digit].
Qed.

(** ** [adjustDifficulty] *)

Lemma background_run {S : Type} (task : M S unit) (s : S) (l : list Event) :
  background task s l = (Normal tt, state_after task s, (l ++ [Background (log_of task s)])%list).
Proof.
  unfold background, state_after, log_of, run.
  destruct (task s []) as [[c s'] l']. reflexivity.
Qed.

Lemma prop_number_not_nullish (o : JsValue) (k : string) (x : float) :
  prop o k = JNum x -> nullish o = false.
Proof. destruct o; cbn; intros H; try discriminate; reflexivity. Qed.

Section AdjustDifficulty.
Import UsePractice Wording.
Variable E : Engine.
Variable production : bool.

(** C3 (as amended): difficulty adaptation is performed server-side.
    [adjustDifficulty] sends only the direction (['up'] or ['down']) to the
    backend, with the token.  On a response marked successful whose level is
    a Number, and unless the difficulty of the current item is a truthy
    non-number, the new level it reports is the level of the response with
    two decimals, and the displayed change is that rounded level minus the
    difficulty of the current practice item rounded to two decimals (1.00
    when there is no item or its difficulty is falsy), with two decimals,
    prefixed with [+] unless it is below zero. *)
Theorem adjustDifficulty_reports_server_level env user r s direction token response level old :
  truthy user = true ->
  storage_getItem env Config.STORAGE_KEYS.AUTH_TOKEN = Resolved token ->
  axios_post env (Config.API_URL production ++ "/api/practice/adjust-difficulty")
    (JObj [("direction", JStr (direction_text direction))])
    ("Bearer " ++ token_text token) = Resolved response ->
  truthy (opt_prop response "success") = true ->
  prop (prop response "data") "level" = JNum level ->
  shown_difficulty (currentPractice r) = Some old ->
  let result := run (adjustDifficulty E production env user r direction) s in
  let difference := minus (parseFloat (toFixed 2 level)) (parseFloat old) in
  let sign := if (difference <? 0)%float then "" else "+" in
  let change := toFixed 2 difference in
  difficultyChange (fst result) = Some (sign ++ change) /\
  exists background_log,
    snd result =
    [StorageGetItem Config.STORAGE_KEYS.AUTH_TOKEN;
     AxiosPost (Config.API_URL production ++ "/api/practice/adjust-difficulty")
       (JObj [("direction", JStr (direction_text direction))])
       ("Bearer " ++ token_text token);
     Alert "Difficulty Adjusted"
       ("Your difficulty level has changed from " ++ old ++ " to " ++ toFixed 2 level
        ++ "." ++ nl ++ nl ++ "Change: " ++ sign ++ change ++ nl ++ nl
        ++ "New questions will reflect this change.");
     Background background_log;
     SetTimeout ClearDifficultyChange 15000].
Proof.
  intros Huser Htoken Hpost Hsuccess Hlevel Hold result difference sign change.
  subst result.
  destruct (truthy_opt_prop _ _ Hsuccess) as [Hresponse _].
  pose proof (prop_number_not_nullish _ _ _ Hlevel) as Hdata.
  assert (Hshown :
    (if truthy (opt_prop (currentPractice r) "difficulty")
     then bind (member E (currentPractice r) "difficulty")
            (fun difficulty => call_toFixed E difficulty 2)
     else ret "1.00") = (ret old : M Hook string)).
  { unfold shown_difficulty in Hold.
    destruct (truthy (opt_prop (currentPractice r) "difficulty")) eqn:Htruthy.
    - destruct (truthy_opt_prop _ _ Htruthy) as [Hitem Heq].
      rewrite Heq in Hold.
      destruct (prop (currentPractice r) "difficulty") as [ | | | d | | | ] eqn:Hd;
        try discriminate Hold.
      injection Hold as <-.
      unfold bind, member, call_toFixed, ret. rewrite Hitem, Hd. reflexivity.
    - injection Hold as <-. reflexivity. }
  unfold run, adjustDifficulty.
  rewrite Hshown.
  unfold alert, storage_getItem_call, axios_post_call,
    setAdjusting, setErrorMessage, setDifficultyTrend, setDifficultyChange.
  unfold function_body, try_catch_finally, bind, await, member, call_toFixed,
    throw, return_, ret, modify, emit.
  rewrite Huser. cbn [negb]. cbv beta iota.
  rewrite Htoken. cbv beta iota. rewrite Hpost. cbv beta iota.
  rewrite Hsuccess, Hresponse, Hdata. cbv beta iota. rewrite Hlevel. cbv beta iota.
  rewrite background_run. cbv beta iota.
  destruct (generatePractice_frame E production env user r
              (with_difficultyChange
                 (Some ((if String.prefix "-"
                              (toFixed 2 (minus (parseFloat (toFixed 2 level)) (parseFloat old)))
                         then "" else "+")
                        ++ toFixed 2 (minus (parseFloat (toFixed 2 level)) (parseFloat old))))
                 (with_difficultyTrend
                    match direction with up => increasing | down => decreasing end
                    (with_errorMessage None (with_adjusting true s))))
              true) as (Hchange & _).
  cbv zeta in Hchange. cbn [fst snd app].
  split.
  - cbn [difficultyChange with_adjusting]. rewrite Hchange. cbn [difficultyChange with_difficultyChange].
    subst change sign difference. rewrite toFixed_minus_sign. reflexivity.
  - eexists. subst change sign difference. rewrite toFixed_minus_sign. reflexivity.
Qed.
End AdjustDifficulty.

Lemma adjustDifficulty_reports_server_level_witness :
  let r := UsePractice.with_currentPractice (Samples.item "q1" 2) UsePractice.initial in
  let response := Samples.ok (JObj [("level", JNum 3)]) in
  let result :=
    run (UsePractice.adjustDifficulty Samples.engine false
           (Samples.answering (Resolved response)) Samples.someUser r UsePractice.up) r in
  UsePractice.difficultyChange (fst result) = Some "+1.00" /\
  In (Alert "Difficulty Adjusted"
        ("Your difficulty level has changed from 2.00 to 3.00." ++ UsePractice.nl
         ++ UsePractice.nl ++ "Change: +1.00" ++ UsePractice.nl ++ UsePractice.nl
         ++ "New questions will reflect this change."))
     (snd result).
Proof.
  pose proof (adjustDifficulty_reports_server_level Samples.engine false
                (Samples.answering (Resolved (Samples.ok (JObj [("level", JNum 3)]))))
                Samples.someUser
                (UsePractice.with_currentPractice (Samples.item "q1" 2) UsePractice.initial)
                (UsePractice.with_currentPractice (Samples.item "q1" 2) UsePractice.initial)
                UsePractice.up (Some "token")
                (Samples.ok (JObj [("level", JNum 3)])) 3%float "2.00"
                eq_refl eq_refl eq_refl eq_refl eq_refl eq_refl) as H.
  cbv zeta in H. destruct H as (Hchange & background_log & Hlog).
  cbv zeta. split.
  - exact Hchange.
  - rewrite Hlog. right. right. left. reflexivity.
Defined.

(** C3 (as stated) fails: the difficulty is rounded to two decimals before it
    is subtracted.  From difficulty 0.125 to level 1 the hook shows [+0.87]
    (1.00 - 0.13), where the level minus the difficulty is 0.875. *)
Lemma adjustDifficulty_rounds_difficulty_first :
  let r := UsePractice.with_currentPractice (Samples.item "q1" 0.125) UsePractice.initial in
  let response := Samples.ok (JObj [("level", JNum 1)]) in
  let shown :=
    UsePractice.difficultyChange
      (state_after
         (UsePractice.adjustDifficulty Samples.engine false
            (Samples.answering (Resolved response)) Samples.someUser r UsePractice.up) r) in
  shown = Some "+0.87" /\
  AsStated.displayed_change 1 (UsePractice.currentPractice r) = "+0.88" /\
  shown <> Some (AsStated.displayed_change 1 (UsePractice.currentPractice r)).
Proof. vm_compute. repeat split. discriminate. Qed.

(** ** The token

    Each function of the practice hook that sends a request reads the token
    through the storage wrapper first and sends what it read. *)

Section Token.
Import UsePractice.
Variable E : Engine.
Variable production : bool.
Variable env : Env.

(** Every request in the log carries the token that [storage.getItem]
    returned for the [AUTH_TOKEN] key. *)
Let carries_wrapper_token (log : list Event) : Prop :=
  forall ev, In ev log -> is_request ev = true ->
    exists token,
      storage_getItem env Config.STORAGE_KEYS.AUTH_TOKEN = Resolved token /\
      authorization_of ev = Some ("Bearer " ++ token_text token).

Ltac token_cases :=
  unfold carries_wrapper_token, log_of, run;
  unfold alert, storage_getItem_call, axios_post_call;
  unfold function_body, try_catch_finally, bind, await, member, call_toFixed,
    throw, return_, ret, modify, emit, read;
  repeat break_match;
  cbn [snd app];
  intros ev Hin Hrequest;
  repeat (destruct Hin as [<- | Hin]; [try discriminate Hrequest | ]);
  try contradiction;
  (eexists; (split; [first [reflexivity | eassumption] | reflexivity])).

Lemma generatePracticeBatch_token user r s :
  carries_wrapper_token (log_of (generatePracticeBatch E production env user r) s).
Proof. unfold generatePracticeBatch, setGeneratingBatch. token_cases. Qed.

Lemma submitAnswer_token r s :
  carries_wrapper_token (log_of (submitAnswer E production env r) s).
Proof.
  unfold submitAnswer, setErrorMessage, setLoading, setFeedback, setQuestionQueueWith.
  token_cases.
Qed.

Lemma askFeedbackQuestion_token r s :
  carries_wrapper_token (log_of (askFeedbackQuestion E production env r) s).
Proof.
  unfold askFeedbackQuestion, setAskingQuestion, setFeedbackAnswer.
  token_cases.
Qed.

Lemma generatePractice_token user r s forceNew :
  carries_wrapper_token (log_of (generatePractice E production env user r forceNew) s).
Proof.
  unfold generatePractice, setErrorMessage, setFeedback, setUserAnswer, setFeedbackQuestion,
    setFeedbackAnswer, setAskingQuestion, setCurrentPractice, setQuestionQueue, setLoading.
  unfold carries_wrapper_token, log_of, run, background.
  unfold alert, storage_getItem_call, axios_post_call;
  unfold function_body, try_catch_finally, bind, await, member,
    throw, return_, ret, modify, emit.
  repeat break_match;
  cbn [snd app];
  intros ev Hin Hrequest;
  repeat (destruct Hin as [<- | Hin]; [try discriminate Hrequest | ]);
  try contradiction;
  (eexists; (split; [first [reflexivity | eassumption] | reflexivity])).
Qed.
Lemma adjustDifficulty_token user r s direction :
  carries_wrapper_token (log_of (adjustDifficulty E production env user r direction) s).
Proof.
  unfold adjustDifficulty, setAdjusting, setErrorMessage, setDifficultyTrend,
    setDifficultyChange.
  unfold carries_wrapper_token, log_of, run, alert, storage_getItem_call, axios_post_call.
  unfold function_body, try_catch_finally, bind, await, member, call_toFixed,
    throw, return_, ret, modify, emit.
  repeat first [rewrite background_run | break_match];
  cbn [snd app];
  intros ev Hin Hrequest;
  repeat (destruct Hin as [<- | Hin]; [try discriminate Hrequest | ]);
  try contradiction;
  (eexists; (split; [first [reflexivity | eassumption] | reflexivity])).
Qed.
End Token.

(** ** What the hook returns *)

(** C8 fails: the object [usePractice] returns has no member
    [askFollowUpQuestion], [complexityChange] or [adjustmentMode] (the
    follow-up function is returned as [askFeedbackQuestion]); these are the
    names the practice screen destructures and finds [undefined], and the
    practice component misses three more. *)
Theorem usePractice_return_lacks_destructured_members :
  filter (fun name => negb (UsePractice.destructured_defined name))
    PracticeScreen.destructured
  = ["complexityChange"; "adjustmentMode"; "askFollowUpQuestion"] /\
  filter (fun name => negb (UsePractice.destructured_defined name))
    PracticeComponent.destructured
  = ["complexityChange"; "adjustmentMode"; "showAdjustmentModal";
     "setShowAdjustmentModal"; "enterAdjustmentMode"; "askFollowUpQuestion"] /\
  UsePractice.destructured_defined "askFeedbackQuestion" = true.
Proof. repeat split. Qed.

(** * Further properties of the hooks *)

(** ** [generatePractice]: the guard and the failures *)

Section GeneratePracticeEdges.
Import UsePractice.
Variable E : Engine.
Variable production : bool.

(** With nobody logged in [generatePractice] reads no token and sends
    nothing: it clears the error message, shows the alert and resets
    [loading]; the practice, the queue and the feedback stay as they were. *)
Theorem generatePractice_without_user env user r s forceNew :
  truthy user = false ->
  run (generatePractice E production env user r forceNew) s =
  (with_loading false (with_errorMessage None s),
   [Alert "Error" "You must be logged in to practice"]).
Proof.
  intros Huser.
  unfold run, generatePractice, alert, setErrorMessage, setLoading.
  unfold_effects. rewrite Huser. reflexivity.
Qed.

(** The outcome of the token read followed by the request of the fetch path. *)
Let fetched (env : Env) (user : JsValue) : Settled JsValue :=
  match storage_getItem env Config.STORAGE_KEYS.AUTH_TOKEN with
  | Rejected e => Rejected e
  | Resolved token =>
      axios_post env (Config.API_URL production ++ "/api/practice/generate")
        (JObj [("userId", prop user "_id"); ("random", JBool true);
               ("batchSize", JNum 5%float)])
        ("Bearer " ++ token_text token)
  end.

(** When the token read or the request fails, a fetching [generatePractice]
    keeps the current practice and the queue, records the message of the
    error after ["Failed to generate practice: "] (["Unknown error"] for a
    thrown value that is not an [Error]), shows the alert, and ends with
    [loading] false and the answer and feedback cleared. *)
Theorem generatePractice_fetch_rejected env user r s forceNew e :
  truthy user = true ->
  forceNew = true \/ questionQueue r = [] ->
  fetched env user = Rejected e ->
  let result := run (generatePractice E production env user r forceNew) s in
  currentPractice (fst result) = currentPractice s /\
  questionQueue (fst result) = questionQueue s /\
  errorMessage (fst result) = Some ("Failed to generate practice: " ++ message_of e) /\
  loading (fst result) = false /\
  feedback (fst result) = None /\
  userAnswer (fst result) = "" /\
  Observations.alerts (snd result)
  = [Alert "Error" "Failed to generate practice. Please try again."].
Proof.
  intros Huser Hfetch Hrejected result. subst result.
  assert (Hqueue : negb forceNew && (0 <? List.length (questionQueue r))%nat = false).
  { destruct Hfetch as [-> | ->]; [reflexivity | apply andb_false_r]. }
  unfold fetched in Hrejected.
  unfold run, generatePractice, alert, storage_getItem_call, axios_post_call,
    setErrorMessage, setFeedback, setUserAnswer, setFeedbackQuestion, setFeedbackAnswer,
    setAskingQuestion, setCurrentPractice, setQuestionQueue, setLoading.
  unfold_effects.
  rewrite Huser, Hqueue, (truthy_not_nullish user Huser). cbn [negb]. cbv beta iota.
  destruct (storage_getItem env Config.STORAGE_KEYS.AUTH_TOKEN) as [token | e'].
  - cbv beta iota. rewrite Hrejected. cbn. repeat split.
  - injection Hrejected as ->. cbn. repeat split.
Qed.

(** A response that is not marked successful, or has no data, is reported as
    ["Invalid practice data received"] and installs nothing. *)
Theorem generatePractice_invalid_response env user r s forceNew response :
  truthy user = true ->
  forceNew = true \/ questionQueue r = [] ->
  fetched env user = Resolved response ->
  truthy (opt_prop response "success") && truthy (opt_prop response "data") = false ->
  let result := run (generatePractice E production env user r forceNew) s in
  currentPractice (fst result) = currentPractice s /\
  errorMessage (fst result)
  = Some "Failed to generate practice: Invalid practice data received" /\
  loading (fst result) = false /\
  Observations.alerts (snd result)
  = [Alert "Error" "Failed to generate practice. Please try again."].
Proof.
  intros Huser Hfetch Hresolved Hinvalid result. subst result.
  assert (Hqueue : negb forceNew && (0 <? List.length (questionQueue r))%nat = false).
  { destruct Hfetch as [-> | ->]; [reflexivity | apply andb_false_r]. }
  unfold fetched in Hresolved.
  unfold run, generatePractice, alert, storage_getItem_call, axios_post_call,
    setErrorMessage, setFeedback, setUserAnswer, setFeedbackQuestion, setFeedbackAnswer,
    setAskingQuestion, setCurrentPractice, setQuestionQueue, setLoading.
  unfold_effects.
  rewrite Huser, Hqueue, (truthy_not_nullish user Huser). cbn [negb]. cbv beta iota.
  destruct (storage_getItem env Config.STORAGE_KEYS.AUTH_TOKEN) as [token | e'];
    [ | discriminate Hresolved].
  cbv beta iota. rewrite Hresolved. cbv beta iota. rewrite Hinvalid. cbn. repeat split.
Qed.

(** [generatePractice(true)] never serves from the queue: it leaves the
    queue as it is, and with a user logged in it always goes to the server,
    starting with the read of the token, however many questions are queued. *)
Theorem generatePractice_forceNew_bypasses_queue env user r s :
  let result := run (generatePractice E production env user r true) s in
  questionQueue (fst result) = questionQueue s /\
  background_calls (snd result) = [] /\
  (if truthy user
   then exists rest, snd result = StorageGetItem Config.STORAGE_KEYS.AUTH_TOKEN :: rest
   else own_requests (snd result) = []).
Proof.
  intros result. subst result.
  unfold run, generatePractice, alert, storage_getItem_call, axios_post_call,
    setErrorMessage, setFeedback, setUserAnswer, setFeedbackQuestion, setFeedbackAnswer,
    setAskingQuestion, setCurrentPractice, setQuestionQueue, setLoading.
  unfold function_body, try_catch_finally, bind, await, member, throw, return_, ret,
    modify, emit.
  destruct (truthy user) eqn:Huser; cbn [negb andb]; cbv beta iota;
    [ | repeat split].
  repeat break_match; cbn; (split; [reflexivity | split; [reflexivity | eexists; reflexivity]]).
Qed.
End GeneratePracticeEdges.

Lemma generatePractice_without_user_witness :
  run (UsePractice.generatePractice Samples.engine false Samples.offline JNull
         Samples.queued true) Samples.queued
  = (UsePractice.with_loading false (UsePractice.with_errorMessage None Samples.queued),
     [Alert "Error" "You must be logged in to practice"]).
Proof.
  exact (generatePractice_without_user Samples.engine false Samples.offline JNull
           Samples.queued Samples.queued true eq_refl).
Defined.

Lemma generatePractice_fetch_rejected_witness :
  let result :=
    run (UsePractice.generatePractice Samples.engine false Samples.offline Samples.someUser
           UsePractice.initial false) Samples.queued in
  UsePractice.questionQueue (fst result) = UsePractice.questionQueue Samples.queued /\
  UsePractice.errorMessage (fst result)
  = Some "Failed to generate practice: Network Error".
Proof.
  pose proof (generatePractice_fetch_rejected Samples.engine false Samples.offline
                Samples.someUser UsePractice.initial Samples.queued false
                (Error "Network Error") eq_refl (or_intror eq_refl) eq_refl) as H.
  cbv zeta in H. destruct H as (_ & Hqueue & Hmessage & _).
  cbv zeta. exact (conj Hqueue Hmessage).
Defined.

Lemma generatePractice_invalid_response_witness :
  let response := JObj [("success", JBool true)] in
  UsePractice.errorMessage
    (fst (run (UsePractice.generatePractice Samples.engine false
                 (Samples.answering (Resolved response)) Samples.someUser
                 UsePractice.initial true) UsePractice.initial))
  = Some "Failed to generate practice: Invalid practice data received".
Proof.
  pose proof (generatePractice_invalid_response Samples.engine false
                (Samples.answering (Resolved (JObj [("success", JBool true)])))
                Samples.someUser UsePractice.initial UsePractice.initial true
                (JObj [("success", JBool true)])
                eq_refl (or_introl eq_refl) eq_refl eq_refl) as H.
  cbv zeta in H. destruct H as (_ & Hmessage & _). cbv zeta. exact Hmessage.
Defined.

(** ** [generatePracticeBatch]: silent and single *)

Section BatchEdges.
Import UsePractice.
Variable E : Engine.
Variable production : bool.

(** The background batch never shows an alert, whatever goes wrong.  Stopped
    by its guard it does nothing at all; otherwise it reads the token and
    sends at most one request. *)
Theorem generatePracticeBatch_is_silent env user r s :
  let log := log_of (generatePracticeBatch E production env user r) s in
  Observations.alerts log = [] /\
  background_calls log = [] /\
  (if negb (truthy user) || generatingBatch r
   then log = []
   else exists rest,
          log = StorageGetItem Config.STORAGE_KEYS.AUTH_TOKEN :: rest /\
          (List.length (own_requests rest) <= 1)%nat).
Proof.
  intros log. subst log.
  unfold log_of, run, generatePracticeBatch, storage_getItem_call, axios_post_call,
    setGeneratingBatch.
  unfold_effects.
  destruct (negb (truthy user) || generatingBatch r); cbv beta iota;
    [repeat split | ].
  repeat break_match; cbn;
    (split; [reflexivity | split; [reflexivity | eexists; split; [reflexivity | cbn; lia]]]).
Qed.
End BatchEdges.

(** ** [submitAnswer]: the guards, the request and the failures *)

Section SubmitAnswerEdges.
Import UsePractice Wording.
Variable E : Engine.
Variable production : bool.

(** Without a practice item, or with an answer that is empty or only white
    space, [submitAnswer] shows the matching alert and stops: no token is
    read, nothing is sent, and the feedback and the queue are untouched.
    Otherwise its first action is the read of the token. *)
Theorem submitAnswer_guards env r s :
  let result := run (submitAnswer E production env r) s in
  let stopped := with_loading false (with_errorMessage None s) in
  if negb (truthy (currentPractice r))
  then result = (stopped, [Alert "Error" "No practice question available"])
  else if String.eqb (trim (userAnswer r)) ""
       then result = (stopped, [Alert "Error" "Please provide an answer"])
       else exists rest, snd result = StorageGetItem Config.STORAGE_KEYS.AUTH_TOKEN :: rest.
Proof.
  intros result stopped. subst result stopped.
  unfold run, submitAnswer, alert, storage_getItem_call, axios_post_call,
    setErrorMessage, setFeedback, setLoading, setQuestionQueueWith.
  unfold_effects.
  destruct (truthy (currentPractice r)) eqn:Hitem; cbn [negb]; cbv beta iota;
    [ | reflexivity].
  destruct (String.eqb (trim (userAnswer r)) "") eqn:Hblank.
  - rewrite orb_true_r. reflexivity.
  - assert (Hanswer : trim (userAnswer r) <> "") by (apply String.eqb_neq; exact Hblank).
    pose proof (not_blank _ Hanswer) as Hboth. rewrite Hblank in Hboth.
    apply orb_false_iff in Hboth. destruct Hboth as [Hempty _].
    rewrite Hempty. cbn [orb]. cbv beta iota.
    repeat break_match; cbn; eexists; reflexivity.
Qed.

(** The answer is sent as typed: the blank test trims it, the request does
    not.  With a practice item, a non-blank answer and a token, the one
    request of [submitAnswer] posts the id of the item and the untrimmed
    answer to [/api/practice/submit]. *)
Theorem submitAnswer_sends_answer_as_typed env r s token :
  truthy (currentPractice r) = true ->
  trim (userAnswer r) <> "" ->
  storage_getItem env Config.STORAGE_KEYS.AUTH_TOKEN = Resolved token ->
  own_requests (log_of (submitAnswer E production env r) s)
  = [AxiosPost (Config.API_URL production ++ "/api/practice/submit")
       (JObj [("practiceId", prop (currentPractice r) "_id");
              ("userAnswer", JStr (userAnswer r))])
       ("Bearer " ++ token_text token)].
Proof.
  intros Hitem Hanswer Htoken.
  unfold log_of, run, submitAnswer, alert, storage_getItem_call, axios_post_call,
    setErrorMessage, setFeedback, setLoading, setQuestionQueueWith.
  unfold_effects.
  rewrite Hitem, (not_blank _ Hanswer), Htoken, (truthy_not_nullish _ Hitem).
  cbn [negb]. cbv beta iota.
  repeat break_match; reflexivity.
Qed.

(** The outcome of the token read followed by the request of [submitAnswer]. *)
Let submitted (env : Env) (r : Hook) : Settled JsValue :=
  match storage_getItem env Config.STORAGE_KEYS.AUTH_TOKEN with
  | Rejected e => Rejected e
  | Resolved token =>
      axios_post env (Config.API_URL production ++ "/api/practice/submit")
        (JObj [("practiceId", prop (currentPractice r) "_id");
               ("userAnswer", JStr (userAnswer r))])
        ("Bearer " ++ token_text token)
  end.

(** When the token read or the request fails, [submitAnswer] shows no
    verdict: the feedback, the queue and the answer stay as they were, the
    message of the error is recorded after ["Failed to submit answer: "],
    the alert is shown and [loading] is false. *)
Theorem submitAnswer_rejected env r s e :
  truthy (currentPractice r) = true ->
  trim (userAnswer r) <> "" ->
  submitted env r = Rejected e ->
  let result := run (submitAnswer E production env r) s in
  feedback (fst result) = feedback s /\
  questionQueue (fst result) = questionQueue s /\
  userAnswer (fst result) = userAnswer s /\
  errorMessage (fst result) = Some ("Failed to submit answer: " ++ message_of e) /\
  loading (fst result) = false /\
  Observations.alerts (snd result)
  = [Alert "Error" "Failed to submit answer. Please try again."].
Proof.
  intros Hitem Hanswer Hrejected result. subst result.
  unfold submitted in Hrejected.
  unfold run, submitAnswer, alert, storage_getItem_call, axios_post_call,
    setErrorMessage, setFeedback, setLoading, setQuestionQueueWith.
  unfold_effects.
  rewrite Hitem, (not_blank _ Hanswer), (truthy_not_nullish _ Hitem).
  cbn [negb]. cbv beta iota.
  destruct (storage_getItem env Config.STORAGE_KEYS.AUTH_TOKEN) as [token | e'].
  - cbv beta iota. rewrite Hrejected. cbn. repeat split.
  - injection Hrejected as ->. cbn. repeat split.
Qed.

(** Any response is shown as feedback, also one that is not marked
    successful: then the verdict is "incorrect" with an empty text, no error
    is recorded and nothing is queued.  The text is the [feedback] of the
    evaluation when a successful response carries one. *)
Theorem submitAnswer_feedback_text env r s response :
  truthy (currentPractice r) = true ->
  trim (userAnswer r) <> "" ->
  submitted env r = Resolved response ->
  let result := run (submitAnswer E production env r) s in
  let evaluation := prop (prop response "data") "evaluation" in
  feedback (fst result)
  = Some {| isCorrect := server_verdict response;
            feedbackText :=
              if truthy (opt_prop response "success") && truthy (opt_prop response "data")
                 && truthy evaluation
              then match prop evaluation "feedback" with
                   | JUndefined => JStr ""
                   | _ => prop evaluation "feedback"
                   end
              else JStr "" |} /\
  errorMessage (fst result) = None /\
  loading (fst result) = false /\
  Observations.alerts (snd result) = [].
Proof.
  intros Hitem Hanswer Hresolved result evaluation. subst result evaluation.
  unfold submitted in Hresolved.
  destruct (storage_getItem env Config.STORAGE_KEYS.AUTH_TOKEN) as [token | e'] eqn:Htoken;
    [ | discriminate Hresolved].
  unfold run, submitAnswer, alert, storage_getItem_call, axios_post_call,
    setErrorMessage, setFeedback, setLoading, setQuestionQueueWith.
  unfold_effects.
  rewrite Hitem, (not_blank _ Hanswer), Htoken, (truthy_not_nullish _ Hitem).
  cbn [negb]. cbv beta iota. rewrite Hresolved. cbv beta iota.
  unfold server_verdict.
  destruct (truthy (opt_prop response "success")) eqn:Hsuccess; cbn [andb]; cbv beta iota;
    [ | cbn; repeat split].
  destruct (truthy (opt_prop response "data")) eqn:Hdata; cbn [andb]; cbv beta iota;
    [ | cbn; repeat split].
  destruct (truthy_opt_prop _ _ Hsuccess) as [Hresponse _].
  destruct (truthy_opt_prop _ _ Hdata) as [_ Hdata_eq].
  rewrite Hdata_eq in Hdata.
  rewrite Hresponse, (truthy_not_nullish _ Hdata). cbv beta iota.
  destruct (truthy (prop (prop response "data") "nextPractice")); cbv beta iota;
    (destruct (truthy (prop (prop response "data") "evaluation")) eqn:Hevaluation;
     cbn [andb]; cbv beta iota;
     [rewrite (truthy_not_nullish _ Hevaluation); cbv beta iota | ]);
    cbn; repeat split.
Qed.
End SubmitAnswerEdges.

Lemma submitAnswer_sends_answer_as_typed_witness :
  own_requests
    (log_of (UsePractice.submitAnswer Samples.engine false Samples.offline
               (Samples.answering_item "q1" 2 " huis ")) UsePractice.initial)
  = [AxiosPost "http://localhost:3000/api/practice/submit"
       (JObj [("practiceId", JStr "q1"); ("userAnswer", JStr " huis ")])
       "Bearer token"].
Proof.
  exact (submitAnswer_sends_answer_as_typed Samples.engine false Samples.offline
           (Samples.answering_item "q1" 2 " huis ") UsePractice.initial (Some "token")
           eq_refl ltac:(vm_compute; discriminate) eq_refl).
Defined.

Lemma submitAnswer_rejected_witness :
  let r := Samples.answering_item "q1" 2 "huis" in
  let result := run (UsePractice.submitAnswer Samples.engine false Samples.offline r) r in
  UsePractice.feedback (fst result) = None /\
  UsePractice.errorMessage (fst result) = Some "Failed to submit answer: Network Error".
Proof.
  pose proof (submitAnswer_rejected Samples.engine false Samples.offline
                (Samples.answering_item "q1" 2 "huis") (Samples.answering_item "q1" 2 "huis")
                (Error "Network Error")
                eq_refl ltac:(vm_compute; discriminate) eq_refl) as H.
  cbv zeta in H. destruct H as (Hfeedback & _ & _ & Hmessage & _).
  cbv zeta. exact (conj Hfeedback Hmessage).
Defined.

Lemma submitAnswer_feedback_text_witness :
  let response := JObj [("success", JBool false); ("message", JStr "Practice not found")] in
  let r := Samples.answering_item "q1" 2 "huis" in
  UsePractice.feedback
    (fst (run (UsePractice.submitAnswer Samples.engine false
                 (Samples.answering (Resolved response)) r) r))
  = Some {| UsePractice.isCorrect := false; UsePractice.feedbackText := JStr "" |}.
Proof.
  pose proof (submitAnswer_feedback_text Samples.engine false
                (Samples.answering
                   (Resolved (JObj [("success", JBool false);
                                    ("message", JStr "Practice not found")])))
                (Samples.answering_item "q1" 2 "huis") (Samples.answering_item "q1" 2 "huis")
                (JObj [("success", JBool false); ("message", JStr "Practice not found")])
                eq_refl ltac:(vm_compute; discriminate) eq_refl) as H.
  cbv zeta in H. destruct H as (Hfeedback & _). cbv zeta. exact Hfeedback.
Defined.

(** ** [adjustDifficulty]: the guard and the failures *)

Section AdjustDifficultyEdges.
Import UsePractice Wording.
Variable E : Engine.
Variable production : bool.

(** The outcome of the token read followed by the request of [adjustDifficulty]. *)
Let adjusted (env : Env) (direction : DifficultyDirection) : Settled JsValue :=
  match storage_getItem env Config.STORAGE_KEYS.AUTH_TOKEN with
  | Rejected e => Rejected e
  | Resolved token =>
      axios_post env (Config.API_URL production ++ "/api/practice/adjust-difficulty")
        (JObj [("direction", JStr (direction_text direction))])
        ("Bearer " ++ token_text token)
  end.

(** With nobody logged in [adjustDifficulty] reads no token and sends
    nothing: it shows the alert, and only the error message is cleared and
    [adjusting] is false again. *)
Theorem adjustDifficulty_without_user env user r s direction :
  truthy user = false ->
  run (adjustDifficulty E production env user r direction) s
  = (with_adjusting false (with_errorMessage None s),
     [Alert "Error" "You must be logged in to adjust difficulty"]).
Proof.
  intros Huser.
  unfold run, adjustDifficulty, alert, setAdjusting, setErrorMessage.
  unfold_effects. rewrite Huser. reflexivity.
Qed.

(** A response that is not marked successful is dropped without a word: no
    alert, no error message, no new trend, no displayed change and no new
    question; only the error message is cleared and [adjusting] is false
    again. *)
Theorem adjustDifficulty_unsuccessful_is_silent env user r s direction response :
  truthy user = true ->
  adjusted env direction = Resolved response ->
  truthy (opt_prop response "success") = false ->
  let result := run (adjustDifficulty E production env user r direction) s in
  fst result = with_adjusting false (with_errorMessage None s) /\
  Observations.alerts (snd result) = [] /\
  background_calls (snd result) = [].
Proof.
  intros Huser Hresolved Hsuccess result. subst result. unfold adjusted in Hresolved.
  destruct (storage_getItem env Config.STORAGE_KEYS.AUTH_TOKEN) as [token | e'] eqn:Htoken;
    [ | discriminate Hresolved].
  unfold run, adjustDifficulty, alert, storage_getItem_call, axios_post_call,
    setAdjusting, setErrorMessage, setDifficultyTrend, setDifficultyChange.
  unfold function_body, try_catch_finally, bind, await, member, call_toFixed,
    throw, return_, ret, modify, emit.
  rewrite Huser. cbn [negb]. cbv beta iota.
  rewrite Htoken. cbv beta iota. rewrite Hresolved. cbv beta iota.
  rewrite Hsuccess. cbn. repeat split.
Qed.

(** When the token read or the request fails, [adjustDifficulty] changes
    neither the trend nor the displayed change, starts no new question,
    records the message of the error after ["Failed to adjust difficulty: "],
    shows the alert and ends with [adjusting] false. *)
Theorem adjustDifficulty_rejected env user r s direction e :
  truthy user = true ->
  adjusted env direction = Rejected e ->
  let result := run (adjustDifficulty E production env user r direction) s in
  fst result
  = with_adjusting false
      (with_errorMessage (Some ("Failed to adjust difficulty: " ++ message_of e)) s) /\
  Observations.alerts (snd result)
  = [Alert "Error" "Failed to adjust difficulty. Please try again."] /\
  background_calls (snd result) = [].
Proof.
  intros Huser Hrejected result. subst result. unfold adjusted in Hrejected.
  unfold run, adjustDifficulty, alert, storage_getItem_call, axios_post_call,
    setAdjusting, setErrorMessage, setDifficultyTrend, setDifficultyChange.
  unfold function_body, try_catch_finally, bind, await, member, call_toFixed,
    throw, return_, ret, modify, emit.
  rewrite Huser. cbn [negb]. cbv beta iota.
  destruct (storage_getItem env Config.STORAGE_KEYS.AUTH_TOKEN) as [token | e'].
  - cbv beta iota. rewrite Hrejected. cbn. repeat split.
  - injection Hrejected as ->. cbn. repeat split.
Qed.

(** A response marked successful whose level is not a Number fails half-way:
    the trend has already been set to the direction when the [TypeError] of
    [toFixed] is caught, so the trend changes although the error alert is
    shown, no change is displayed and no new question is requested. *)
Theorem adjustDifficulty_level_not_a_number env user r s direction response old :
  truthy user = true ->
  adjusted env direction = Resolved response ->
  truthy (opt_prop response "success") = true ->
  nullish (prop response "data") = false ->
  (forall x, prop (prop response "data") "level" <> JNum x) ->
  shown_difficulty (currentPractice r) = Some old ->
  let level := prop (prop response "data") "level" in
  let result := run (adjustDifficulty E production env user r direction) s in
  difficultyTrend (fst result)
  = match direction with up => increasing | down => decreasing end /\
  difficultyChange (fst result) = difficultyChange s /\
  errorMessage (fst result)
  = Some ("Failed to adjust difficulty: "
          ++ TypeError_message E (if nullish level
                                  then ReadOfNullish level "toFixed"
                                  else NotAFunction level "toFixed")) /\
  adjusting (fst result) = false /\
  Observations.alerts (snd result)
  = [Alert "Error" "Failed to adjust difficulty. Please try again."] /\
  background_calls (snd result) = [].
Proof.
  intros Huser Hresolved Hsuccess Hdata Hlevel Hold level result. subst result level.
  unfold adjusted in Hresolved.
  destruct (storage_getItem env Config.STORAGE_KEYS.AUTH_TOKEN) as [token | e'] eqn:Htoken;
    [ | discriminate Hresolved].
  destruct (truthy_opt_prop _ _ Hsuccess) as [Hresponse _].
  assert (Hshown :
    (if truthy (opt_prop (currentPractice r) "difficulty")
     then bind (member E (currentPractice r) "difficulty")
            (fun difficulty => call_toFixed E difficulty 2)
     else ret "1.00") = (ret old : M Hook string)).
  { unfold shown_difficulty in Hold.
    destruct (truthy (opt_prop (currentPractice r) "difficulty")) eqn:Htruthy.
    - destruct (truthy_opt_prop _ _ Htruthy) as [Hitem Heq].
      rewrite Heq in Hold.
      destruct (prop (currentPractice r) "difficulty") as [ | | | d | | | ] eqn:Hd;
        try discriminate Hold.
      injection Hold as <-.
      unfold bind, member, call_toFixed, ret. rewrite Hitem, Hd. reflexivity.
    - injection Hold as <-. reflexivity. }
  unfold run, adjustDifficulty.
  rewrite Hshown.
  unfold alert, storage_getItem_call, axios_post_call,
    setAdjusting, setErrorMessage, setDifficultyTrend, setDifficultyChange.
  unfold function_body, try_catch_finally, bind, await, member, call_toFixed,
    throw, return_, ret, modify, emit.
  rewrite Huser. cbn [negb]. cbv beta iota.
  rewrite Htoken. cbv beta iota. rewrite Hresolved. cbv beta iota.
  rewrite Hsuccess, Hresponse, Hdata. cbv beta iota.
  destruct (prop (prop response "data") "level") as [ | | | x | | | ] eqn:Hvalue;
    try (exfalso; apply (Hlevel x); reflexivity);
    cbn; repeat split.
Qed.
End AdjustDifficultyEdges.

Lemma adjustDifficulty_rejected_witness :
  let r := UsePractice.with_currentPractice (Samples.item "q1" 2) UsePractice.initial in
  fst (run (UsePractice.adjustDifficulty Samples.engine false Samples.offline
              Samples.someUser r UsePractice.down) r)
  = UsePractice.with_adjusting false
      (UsePractice.with_errorMessage
         (Some "Failed to adjust difficulty: Network Error") r).
Proof.
  pose proof (adjustDifficulty_rejected Samples.engine false Samples.offline
                Samples.someUser
                (UsePractice.with_currentPractice (Samples.item "q1" 2) UsePractice.initial)
                (UsePractice.with_currentPractice (Samples.item "q1" 2) UsePractice.initial)
                UsePractice.down (Error "Network Error") eq_refl eq_refl) as H.
  cbv zeta in H. destruct H as (Hstate & _). cbv zeta. exact Hstate.
Defined.

Lemma adjustDifficulty_level_not_a_number_witness :
  let response := Samples.ok (JObj [("level", JStr "2.5")]) in
  let r := UsePractice.with_currentPractice (Samples.item "q1" 2) UsePractice.initial in
  let result :=
    run (UsePractice.adjustDifficulty Samples.engine false
           (Samples.answering (Resolved response)) Samples.someUser r UsePractice.up) r in
  UsePractice.difficultyTrend (fst result) = UsePractice.increasing /\
  UsePractice.difficultyChange (fst result) = None /\
  UsePractice.errorMessage (fst result)
  = Some "Failed to adjust difficulty: toFixed is not a function".
Proof.
  pose proof (adjustDifficulty_level_not_a_number Samples.engine false
                (Samples.answering (Resolved (Samples.ok (JObj [("level", JStr "2.5")]))))
                Samples.someUser
                (UsePractice.with_currentPractice (Samples.item "q1" 2) UsePractice.initial)
                (UsePractice.with_currentPractice (Samples.item "q1" 2) UsePractice.initial)
                UsePractice.up (Samples.ok (JObj [("level", JStr "2.5")])) "2.00"
                eq_refl eq_refl eq_refl eq_refl
                ltac:(intros x; vm_compute; discriminate) eq_refl) as H.
  cbv zeta in H. destruct H as (Htrend & Hchange & Hmessage & _).
  cbv zeta. exact (conj Htrend (conj Hchange Hmessage)).
Defined.

Lemma adjustDifficulty_without_user_witness :
  run (UsePractice.adjustDifficulty Samples.engine false Samples.offline JNull
         Samples.queued UsePractice.up) Samples.queued
  = (UsePractice.with_adjusting false (UsePractice.with_errorMessage None Samples.queued),
     [Alert "Error" "You must be logged in to adjust difficulty"]).
Proof.
  exact (adjustDifficulty_without_user Samples.engine false Samples.offline JNull
           Samples.queued Samples.queued UsePractice.up eq_refl).
Defined.

Lemma adjustDifficulty_unsuccessful_is_silent_witness :
  let response := JObj [("success", JBool false); ("message", JStr "No progress record")] in
  let result :=
    run (UsePractice.adjustDifficulty Samples.engine false
           (Samples.answering (Resolved response)) Samples.someUser Samples.queued
           UsePractice.up) Samples.queued in
  fst result = UsePractice.with_adjusting false
                 (UsePractice.with_errorMessage None Samples.queued) /\
  Observations.alerts (snd result) = [].
Proof.
  pose proof (adjustDifficulty_unsuccessful_is_silent Samples.engine false
                (Samples.answering
                   (Resolved (JObj [("success", JBool false);
                                    ("message", JStr "No progress record")])))
                Samples.someUser Samples.queued Samples.queued UsePractice.up
                (JObj [("success", JBool false); ("message", JStr "No progress record")])
                eq_refl eq_refl eq_refl) as H.
  cbv zeta in H. destruct H as (Hstate & Halerts & _).
  cbv zeta. exact (conj Hstate Halerts).
Defined.

(** ** [askFeedbackQuestion] *)

Section AskFeedbackQuestion.
Import UsePractice.
Variable E : Engine.
Variable production : bool.

(** The outcome of the token read followed by the request of
    [askFeedbackQuestion]. *)
Let asked (env : Env) (r : Hook) : Settled JsValue :=
  match storage_getItem env Config.STORAGE_KEYS.AUTH_TOKEN with
  | Rejected e => Rejected e
  | Resolved token =>
      axios_post env (Config.API_URL production ++ "/api/practice/question")
        (JObj [("question", JStr (feedbackQuestion r));
               ("practiceId", prop (currentPractice r) "_id");
               ("userAnswer", JStr (userAnswer r));
               ("feedback", match feedback r with
                            | Some f => feedbackText f
                            | None => JUndefined
                            end)])
        ("Bearer " ++ token_text token)
  end.

(** With a blank question, no practice item or no feedback,
    [askFeedbackQuestion] does nothing at all.  Otherwise the previous answer
    is dropped first; the new answer is the truthy [answer] of the response,
    a response without one gives the "unexpected format" alert, a failure the
    "Failed to get an answer" alert; [askingQuestion] is false at the end,
    and the error message and [loading] are never touched. *)
Theorem askFeedbackQuestion_outcomes env r s :
  let result := run (askFeedbackQuestion E production env r) s in
  if String.eqb (trim (feedbackQuestion r)) ""
     || negb (truthy (currentPractice r))
     || match feedback r with None => true | Some _ => false end
  then result = (s, [])
  else
    let answered (answer : JsValue) :=
      with_askingQuestion false (with_feedbackAnswer answer s) in
    match asked env r with
    | Rejected _ =>
        fst result = answered JNull /\
        Observations.alerts (snd result)
        = [Alert "Error" "Failed to get an answer. Please try again."]
    | Resolved response =>
        if truthy response && truthy (prop response "answer")
        then fst result = answered (prop response "answer") /\
             Observations.alerts (snd result) = []
        else fst result = answered JNull /\
             Observations.alerts (snd result)
             = [Alert "Error" "The response from the server was in an unexpected format."]
    end.
Proof.
  intros result. subst result. unfold asked.
  unfold run, askFeedbackQuestion, alert, storage_getItem_call, axios_post_call,
    setAskingQuestion, setFeedbackAnswer.
  unfold_effects.
  destruct (String.eqb (trim (feedbackQuestion r)) ""); cbn [orb]; [reflexivity | ].
  destruct (truthy (currentPractice r)) eqn:Hitem; cbn [orb negb]; [ | reflexivity].
  destruct (feedback r) as [f | ]; [ | reflexivity].
  cbv beta iota zeta. rewrite (truthy_not_nullish _ Hitem).
  destruct (storage_getItem env Config.STORAGE_KEYS.AUTH_TOKEN) as [token | e];
    cbv beta iota; [ | cbn; split; reflexivity].
  destruct (axios_post env _ _ _) as [response | e]; cbv beta iota;
    [ | cbn; split; reflexivity].
  destruct (truthy response && truthy (prop response "answer")); cbn; split; reflexivity.
Qed.
End AskFeedbackQuestion.

(** ** [handleNextPractice] *)

Section HandleNextPractice.
Import UsePractice.
Variable E : Engine.
Variable production : bool.

(** The state [generatePractice] ends in does not depend on the six cells it
    resets first. *)
Lemma generatePractice_resets env user r s forceNew :
  truthy user = true ->
  state_after (generatePractice E production env user r forceNew)
    (with_askingQuestion false
       (with_feedbackAnswer JNull
          (with_feedbackQuestion "" (with_userAnswer "" (with_feedback None s)))))
  = state_after (generatePractice E production env user r forceNew) s.
Proof.
  intros Huser.
  unfold state_after, run, generatePractice, alert, storage_getItem_call, axios_post_call,
    setErrorMessage, setFeedback, setUserAnswer, setFeedbackQuestion, setFeedbackAnswer,
    setAskingQuestion, setCurrentPractice, setQuestionQueue, setLoading.
  unfold function_body, try_catch_finally, bind, await, member, throw, return_, ret,
    modify, emit.
  rewrite Huser. cbn [negb]. cbv beta iota.
  destruct (negb forceNew && (0 <? List.length (questionQueue r))%nat); cbv beta iota.
  - destruct ((List.length (skipn 1 (questionQueue r)) <? 2)%nat && negb (generatingBatch r));
      [ | reflexivity].
    rewrite !background_run. cbv beta iota. cbn [fst].
    rewrite !(generatePracticeBatch_state E production env user r). 
    destruct (negb (truthy user) || generatingBatch r); reflexivity.
  - repeat break_match; reflexivity.
Qed.

(** For a logged-in user the next-question button is [generatePractice()]:
    clearing the feedback first changes nothing, the state ends as after a
    plain [generatePractice()] and everything the call does is done in the
    background.  With nobody logged in the button still clears the answer and
    the feedback, which [generatePractice()] alone would leave. *)
Theorem handleNextPractice_is_generatePractice env user r s :
  let result := run (handleNextPractice E production env user r) s in
  let cleared :=
    with_askingQuestion false
      (with_feedbackAnswer JNull
         (with_feedbackQuestion "" (with_userAnswer "" (with_feedback None s)))) in
  (exists events, snd result = [Background events]) /\
  fst result =
    (if truthy user
     then state_after (generatePractice E production env user r false) s
     else with_loading false (with_errorMessage None cleared)).
Proof.
  intros result cleared. subst result.
  unfold run, handleNextPractice, setFeedback, setUserAnswer, setFeedbackQuestion,
    setFeedbackAnswer, setAskingQuestion.
  unfold function_body, bind, modify. cbv beta iota.
  rewrite background_run. cbv beta iota. fold cleared. cbn [fst snd app].
  split; [eexists; reflexivity | ].
  destruct (truthy user) eqn:Huser.
  - apply (generatePractice_resets env user r s false Huser).
  - unfold state_after, run, generatePractice, alert, setErrorMessage, setLoading.
    unfold_effects. rewrite Huser. reflexivity.
Qed.
End HandleNextPractice.

(** ** The difficulty trend: what is recorded *)

Section DifficultyRecord.
Import UsePractice.
Variable E : Engine.

(** The effect records a difficulty only when it is truthy: without a
    practice item, or with a difficulty of 0, NaN or none, it changes
    nothing, so the recorded difficulty is never replaced by a falsy value.
    It never logs anything. *)
Theorem difficultyTrendEffect_records_only_truthy r s :
  let result := run (difficultyTrendEffect E r) s in
  snd result = [] /\
  (if truthy (currentPractice r) && truthy (prop (currentPractice r) "difficulty")
   then previousDifficultyRef (fst result) = prop (currentPractice r) "difficulty"
   else fst result = s) /\
  (previousDifficultyRef (fst result) = previousDifficultyRef s \/
   truthy (previousDifficultyRef (fst result)) = true).
Proof.
  intros result. subst result.
  unfold run, difficultyTrendEffect, setDifficultyTrend. unfold_effects.
  destruct (truthy (currentPractice r) && truthy (prop (currentPractice r) "difficulty"))
    eqn:Hcond; cbv beta iota.
  - apply andb_prop in Hcond. destruct Hcond as [_ Hdifficulty].
    repeat break_match; cbn; (split; [reflexivity | split; [reflexivity | right; exact Hdifficulty]]).
  - cbn. repeat split. left. reflexivity.
Qed.
End DifficultyRecord.

Lemma difficultyTrendEffect_first_item_witness :
  let r := UsePractice.with_currentPractice (Samples.item "q1" 2)
             (UsePractice.with_difficultyTrend UsePractice.increasing UsePractice.initial) in
  let s' := state_after (UsePractice.difficultyTrendEffect Samples.engine r) r in
  UsePractice.difficultyTrend s' = UsePractice.increasing /\
  UsePractice.previousDifficultyRef s' = JNum 2.
Proof.
  pose proof (difficultyTrendEffect_first_item Samples.engine
                (UsePractice.with_currentPractice (Samples.item "q1" 2)
                   (UsePractice.with_difficultyTrend UsePractice.increasing
                      UsePractice.initial))
                (UsePractice.with_currentPractice (Samples.item "q1" 2)
                   (UsePractice.with_difficultyTrend UsePractice.increasing
                      UsePractice.initial))
                eq_refl eq_refl eq_refl) as H.
  cbv zeta. rewrite H. split; reflexivity.
Defined.

(** ** Sessions: what is queued is a question *)

Section SessionItems.
Import UsePractice Wording Session.
Variable E : Engine.
Variable production : bool.

Lemma server_nextPractice_truthy (response : JsValue) :
  Forall (fun item => truthy item = true) (server_nextPractice response).
Proof.
  unfold server_nextPractice.
  destruct (truthy (opt_prop response "success") && truthy (opt_prop response "data")
            && truthy (prop (prop response "data") "nextPractice")) eqn:Hnext;
    [ | constructor].
  apply andb_prop in Hnext. destruct Hnext as [_ Hnext].
  constructor; [exact Hnext | constructor].
Qed.

Lemma step_keeps_items_truthy user t a :
  Forall (fun item => truthy item = true) (presented t) ->
  Forall (fun item => truthy item = true) (enqueued t) ->
  Forall (fun item => truthy item = true) (questionQueue (state t)) ->
  Forall (fun item => truthy item = true) (presented (step E production user t a)) /\
  Forall (fun item => truthy item = true) (enqueued (step E production user t a)) /\
  Forall (fun item => truthy item = true)
    (questionQueue (state (step E production user t a))).
Proof.
  intros Hpresented Henqueued Hqueue.
  destruct a as [env | env | env]; cbn [step state presented enqueued].
  - destruct (submitAnswer_appends E production env (state t) (state t))
      as (added & Hadded & Hfrom).
    assert (Hnew : Forall (fun item => truthy item = true) added).
    { destruct Hfrom as [-> | (url & body & authorization & response & _ & ->)];
        [constructor | apply server_nextPractice_truthy]. }
    rewrite Hadded, skipn_app, skipn_all, Nat.sub_diag. cbn [skipn app].
    repeat split; try assumption; apply Forall_app; split; assumption.
  - destruct (generatePractice_pops_front E production env user (state t) (state t) false)
      as [[Hserve Hsame] | [Hserve Hpop]];
      rewrite andb_true_r in Hserve; rewrite Hserve.
    + rewrite app_nil_r, Hsame. repeat split; assumption.
    + rewrite Hpop in Hqueue. inversion Hqueue as [ | item rest Hitem Hrest]; subst.
      repeat split; try assumption.
      apply Forall_app. split; [assumption | constructor; [exact Hitem | constructor]].
  - destruct (generatePractice_pops_front E production env user (state t) (state t) true)
      as [[_ Hsame] | [Hserve _]].
    + rewrite Hsame. repeat split; assumption.
    + rewrite andb_false_r in Hserve. discriminate.
Qed.

(** Only truthy values are ever queued, so a question served from the queue
    is never [null] or [undefined]: in a session that starts with a queue of
    truthy items, every item enqueued, every item presented and every item
    still queued is truthy. *)
Theorem session_items_are_truthy user actions s :
  Forall (fun item => truthy item = true) (questionQueue s) ->
  let t := session E production user actions s in
  Forall (fun item => truthy item = true) (presented t) /\
  Forall (fun item => truthy item = true) (enqueued t) /\
  Forall (fun item => truthy item = true) (questionQueue (state t)).
Proof.
  intros Hqueue t. subst t. unfold session.
  set (start := {| state := s; presented := []; enqueued := [] |}).
  assert (Hstart :
    Forall (fun item => truthy item = true) (presented start) /\
    Forall (fun item => truthy item = true) (enqueued start) /\
    Forall (fun item => truthy item = true) (questionQueue (state start))).
  { cbn. repeat split; [constructor | constructor | exact Hqueue]. }
  clearbody start. clear Hqueue. revert start Hstart.
  induction actions as [ | a actions IH]; intros start Hstart; cbn [fold_left].
  - exact Hstart.
  - apply IH. destruct Hstart as (Hp & He & Hq).
    apply step_keeps_items_truthy; assumption.
Qed.
End SessionItems.

Lemma session_items_are_truthy_witness :
  let response := Samples.ok (JObj [("nextPractice", Samples.item "q3" 4)]) in
  let start := UsePractice.with_userAnswer "huis"
                 (UsePractice.with_currentPractice (Samples.item "q0" 1) Samples.queued) in
  let t := Session.session Samples.engine false Samples.someUser
             [Session.Submit (Samples.answering (Resolved response));
              Session.Next Samples.offline] start in
  Forall (fun item => truthy item = true) (Session.presented t) /\
  Forall (fun item => truthy item = true) (Session.enqueued t) /\
  Forall (fun item => truthy item = true) (UsePractice.questionQueue (Session.state t)).
Proof.
  apply (session_items_are_truthy Samples.engine false Samples.someUser).
  repeat constructor.
Defined.

(** ** Every request of the practice hook carries the stored token *)

Section DeepToken.
Import UsePractice Observations.
Variable E : Engine.
Variable production : bool.
Variable env : Env.

Ltac deep_cases :=
  unfold all_requests, log_of, run;
  unfold alert, storage_getItem_call, axios_post_call;
  unfold function_body, try_catch_finally, bind, await, member, call_toFixed,
    throw, return_, ret, modify, emit, read;
  repeat first [rewrite background_run | break_match];
  cbn [snd app flat_map requests_in];
  repeat first
    [ apply Forall_nil
    | apply Forall_cons; [eexists; (split; [first [reflexivity | eassumption] | reflexivity]) | ]
    | apply Forall_app; split ].

Lemma generatePracticeBatch_all_requests user r s :
  Forall (carries_wrapper_token env)
    (all_requests (log_of (generatePracticeBatch E production env user r) s)).
Proof. unfold generatePracticeBatch, setGeneratingBatch. deep_cases. Qed.

Lemma generatePractice_all_requests user r s forceNew :
  Forall (carries_wrapper_token env)
    (all_requests (log_of (generatePractice E production env user r forceNew) s)).
Proof.
  unfold generatePractice, setErrorMessage, setFeedback, setUserAnswer, setFeedbackQuestion,
    setFeedbackAnswer, setAskingQuestion, setCurrentPractice, setQuestionQueue, setLoading.
  deep_cases; try rewrite app_nil_r; apply generatePracticeBatch_all_requests.
Qed.

Lemma adjustDifficulty_all_requests user r s direction :
  Forall (carries_wrapper_token env)
    (all_requests (log_of (adjustDifficulty E production env user r direction) s)).
Proof.
  unfold adjustDifficulty, setAdjusting, setErrorMessage, setDifficultyTrend,
    setDifficultyChange.
  deep_cases; try rewrite app_nil_r; apply generatePractice_all_requests.
Qed.

Lemma handleNextPractice_all_requests user r s :
  Forall (carries_wrapper_token env)
    (all_requests (log_of (handleNextPractice E production env user r) s)).
Proof.
  unfold handleNextPractice, setFeedback, setUserAnswer, setFeedbackQuestion,
    setFeedbackAnswer, setAskingQuestion.
  deep_cases; try rewrite app_nil_r; apply generatePractice_all_requests.
Qed.

Lemma submitAnswer_all_requests r s :
  Forall (carries_wrapper_token env)
    (all_requests (log_of (submitAnswer E production env r) s)).
Proof.
  unfold submitAnswer, setErrorMessage, setLoading, setFeedback, setQuestionQueueWith.
  deep_cases.
Qed.

Lemma askFeedbackQuestion_all_requests r s :
  Forall (carries_wrapper_token env)
    (all_requests (log_of (askFeedbackQuestion E production env r) s)).
Proof.
  unfold askFeedbackQuestion, setAskingQuestion, setFeedbackAnswer.
  deep_cases.
Qed.

(** Whatever the world answers, every request that a function of the
    practice hook sends, itself or through the call it starts in the
    background, has the header [Bearer] followed by the token that
    [storage.getItem] returned for the [AUTH_TOKEN] key; when that read fails
    no request is sent at all. *)
Theorem usePractice_requests_carry_stored_token user r s forceNew direction :
  let authorized (call : M Hook unit) :=
    Forall (carries_wrapper_token env) (all_requests (log_of call s)) in
  authorized (generatePracticeBatch E production env user r) /\
  authorized (generatePractice E production env user r forceNew) /\
  authorized (submitAnswer E production env r) /\
  authorized (adjustDifficulty E production env user r direction) /\
  authorized (askFeedbackQuestion E production env r) /\
  authorized (handleNextPractice E production env user r).
Proof.
  cbv zeta. repeat split.
  - apply generatePracticeBatch_all_requests.
  - apply generatePractice_all_requests.
  - apply submitAnswer_all_requests.
  - apply adjustDifficulty_all_requests.
  - apply askFeedbackQuestion_all_requests.
  - apply handleNextPractice_all_requests.
Qed.
End DeepToken.

(** ** The practice component: what is shown after a call *)

Section PracticeViewProperties.
Import UsePractice PracticeView.
Variable E : Engine.
Variable production : bool.

(** Once [generatePractice] has completed for a logged-in user whose queue
    holds only truthy items, the component no longer shows the activity
    indicator: it shows the error when the call failed and the exercise
    otherwise. *)
Theorem generatePractice_leaves_loading_view env user r s forceNew :
  truthy user = true ->
  Forall (fun item => truthy item = true) (questionQueue r) ->
  let s' := state_after (generatePractice E production env user r forceNew) s in
  match errorMessage s' with
  | Some message => view s' = ErrorView message
  | None => exists difficulty complexity, view s' = ExerciseView difficulty complexity
  end.
Proof.
  intros Huser Hitems s'. subst s'.
  destruct (negb forceNew && (0 <? List.length (questionQueue r))%nat) eqn:Hserve.
  - apply andb_prop in Hserve. destruct Hserve as [Hforce Hlength].
    apply negb_true_iff in Hforce. subst forceNew.
    destruct (questionQueue r) as [ | q rest] eqn:Hqueue; [discriminate Hlength | ].
    inversion Hitems as [ | ? ? Hq _]; subst.
    unfold state_after.
    rewrite (generatePractice_queue_path E production env user r s q rest Huser Hqueue).
    destruct ((List.length rest <? 2)%nat && negb (generatingBatch r));
      cbn [fst]; unfold view; cbn; rewrite Hq; cbn; do 2 eexists; reflexivity.
  - unfold state_after, run, generatePractice, alert, storage_getItem_call, axios_post_call,
      setErrorMessage, setFeedback, setUserAnswer, setFeedbackQuestion, setFeedbackAnswer,
      setAskingQuestion, setCurrentPractice, setQuestionQueue, setLoading.
    unfold function_body, try_catch_finally, bind, await, member, throw, return_, ret,
      modify, emit.
    rewrite Huser, Hserve, (truthy_not_nullish user Huser). cbn [negb]. cbv beta iota.
    destruct (storage_getItem env Config.STORAGE_KEYS.AUTH_TOKEN) as [token | e];
      cbv beta iota; [ | cbn; reflexivity].
    destruct (axios_post env _ _ _) as [response | e]; cbv beta iota; [ | cbn; reflexivity].
    destruct (truthy (opt_prop response "success") && truthy (opt_prop response "data"))
      eqn:Hvalid; cbv beta iota; [ | cbn; reflexivity].
    apply andb_prop in Hvalid. destruct Hvalid as [Hsuccess Hdata].
    destruct (truthy_opt_prop _ _ Hsuccess) as [Hresponse _].
    destruct (truthy_opt_prop _ _ Hdata) as [_ Hdata_eq].
    rewrite Hdata_eq in Hdata.
    rewrite Hresponse, (truthy_not_nullish _ Hdata). cbv beta iota.
    cbn. do 2 eexists; reflexivity.
Qed.

(** The outcome of the token read followed by the request of the fetch path. *)
Let fetched (env : Env) (user : JsValue) : Settled JsValue :=
  match storage_getItem env Config.STORAGE_KEYS.AUTH_TOKEN with
  | Rejected e => Rejected e
  | Resolved token =>
      axios_post env (Config.API_URL production ++ "/api/practice/generate")
        (JObj [("userId", prop user "_id"); ("random", JBool true);
               ("batchSize", JNum 5%float)])
        ("Bearer " ++ token_text token)
  end.

(** When the empty-state effect fires (no practice item, not loading) for a
    logged-in user with an empty queue and the fetch fails, the state it
    leaves satisfies the condition of the effect again, with the error
    recorded and the alert shown in the background call: a failure does not
    stop the next run of the effect from asking again. *)
Theorem emptyStateEffect_fires_again_after_failure env user r e :
  truthy (currentPractice r) = false ->
  loading r = false ->
  truthy user = true ->
  questionQueue r = [] ->
  fetched env user = Rejected e ->
  let result := run (emptyStateEffect E production env user r) r in
  negb (truthy (currentPractice (fst result))) && negb (loading (fst result)) = true /\
  errorMessage (fst result) = Some ("Failed to generate practice: " ++ message_of e) /\
  exists events,
    snd result = [Background events] /\
    Observations.alerts events
    = [Alert "Error" "Failed to generate practice. Please try again."].
Proof.
  intros Hitem Hloading Huser Hqueue Hrejected result. subst result.
  unfold fetched in Hrejected.
  unfold run, emptyStateEffect, function_body.
  rewrite Hitem, Hloading. cbn [negb andb].
  rewrite background_run. cbv beta iota. cbn [fst snd app].
  unfold state_after, log_of, run, generatePractice, alert, storage_getItem_call,
    axios_post_call, setErrorMessage, setFeedback, setUserAnswer, setFeedbackQuestion,
    setFeedbackAnswer, setAskingQuestion, setCurrentPractice, setQuestionQueue, setLoading.
  unfold function_body, try_catch_finally, bind, await, member, throw, return_, ret,
    modify, emit.
  rewrite Huser, Hqueue, (truthy_not_nullish user Huser).
  cbn [negb andb List.length Nat.ltb Nat.leb]. cbv beta iota.
  destruct (storage_getItem env Config.STORAGE_KEYS.AUTH_TOKEN) as [token | e'];
    cbv beta iota.
  - rewrite Hrejected. cbn. rewrite Hitem.
    split; [reflexivity | split; [reflexivity | eexists; split; reflexivity]].
  - injection Hrejected as ->. cbn. rewrite Hitem.
    split; [reflexivity | split; [reflexivity | eexists; split; reflexivity]].
Qed.

(** While there is a practice item, or a call is loading, the effect does
    nothing. *)
Lemma emptyStateEffect_idle env user r s :
  truthy (currentPractice r) = true \/ loading r = true ->
  run (emptyStateEffect E production env user r) s = (s, []).
Proof.
  intros Hidle. unfold run, emptyStateEffect, function_body, ret.
  destruct Hidle as [-> | ->]; [reflexivity | rewrite andb_false_r; reflexivity].
Qed.
End PracticeViewProperties.

Lemma generatePractice_leaves_loading_view_witness :
  let s' :=
    state_after (UsePractice.generatePractice Samples.engine false Samples.offline
                   Samples.someUser Samples.queued false) Samples.queued in
  match UsePractice.errorMessage s' with
  | Some message => PracticeView.view s' = PracticeView.ErrorView message
  | None =>
      exists difficulty complexity,
        PracticeView.view s' = PracticeView.ExerciseView difficulty complexity
  end.
Proof.
  assert (Hitems : Forall (fun item => truthy item = true)
                     (UsePractice.questionQueue Samples.queued)) by (repeat constructor).
  exact (generatePractice_leaves_loading_view Samples.engine false Samples.offline
           Samples.someUser Samples.queued Samples.queued false eq_refl Hitems).
Defined.

Lemma emptyStateEffect_fires_again_after_failure_witness :
  let result :=
    run (PracticeView.emptyStateEffect Samples.engine false Samples.offline
           Samples.someUser UsePractice.initial) UsePractice.initial in
  negb (truthy (UsePractice.currentPractice (fst result)))
  && negb (UsePractice.loading (fst result)) = true /\
  UsePractice.errorMessage (fst result)
  = Some "Failed to generate practice: Network Error".
Proof.
  pose proof (emptyStateEffect_fires_again_after_failure Samples.engine false
                Samples.offline Samples.someUser UsePractice.initial
                (Error "Network Error") eq_refl eq_refl eq_refl eq_refl eq_refl) as H.
  cbv zeta in H. destruct H as (Hfires & Hmessage & _).
  cbv zeta. exact (conj Hfires Hmessage).
Defined.

(** ** The practice screen: the initial load happens once *)

Section InitialLoad.
Import UsePractice PracticeScreenLoad Observations.
Variable E : Engine.
Variable production : bool.

(** One run of the effect starts at most one call, and only if none was
    started before; once it has started one, [initialLoadRef] is set. *)
Lemma initialLoadEffect_once env user token r s :
  let result := run (initialLoadEffect E production env user token r) s in
  (background_count (snd result) + (if initialLoadRef (fst result) then 0 else 1)
   <= (if initialLoadRef s then 0 else 1))%nat /\
  List.length (snd result) = background_count (snd result).
Proof.
  intros result. subst result.
  unfold run, initialLoadEffect, function_body, bind, read, modify, return_, ret, lift.
  destruct (negb (truthy user) || negb (truthy token)); cbv beta iota.
  - cbn. destruct (initialLoadRef s); split; cbn; lia.
  - destruct (negb (truthy (currentPractice r)) && negb (loading r)
              && negb (initialLoadRef s)) eqn:Hfires; cbv beta iota.
    + apply andb_prop in Hfires. destruct Hfires as [_ Hfirst].
      apply negb_true_iff in Hfirst.
      rewrite background_run. cbn. rewrite Hfirst. split; cbn; lia.
    + cbn. destruct (initialLoadRef s); split; cbn; lia.
Qed.

Lemma background_count_app (l1 l2 : list Event) :
  background_count (l1 ++ l2) = (background_count l1 + background_count l2)%nat.
Proof.
  unfold background_count, background_calls. rewrite filter_app, length_app. reflexivity.
Qed.

Lemma reruns_once xs :
  forall acc,
    (background_count (snd (fold_left (rerun E production) xs acc))
     + (if initialLoadRef (fst (fold_left (rerun E production) xs acc)) then 0 else 1)
     <= background_count (snd acc) + (if initialLoadRef (fst acc) then 0 else 1))%nat.
Proof.
  induction xs as [ | x xs IH]; intros acc; cbn [fold_left].
  - lia.
  - eapply Nat.le_trans; [apply IH | ].
    unfold rerun.
    pose proof (initialLoadEffect_once (world x) (user x) (token x) (render x)
                  {| hook := before x; initialLoadRef := initialLoadRef (fst acc) |})
      as [Hstep _].
    cbv zeta in Hstep. cbn [initialLoadRef] in Hstep.
    destruct (run (initialLoadEffect E production (world x) (user x) (token x) (render x))
                {| hook := before x; initialLoadRef := initialLoadRef (fst acc) |})
      as [s' l] eqn:Hrun.
    cbn [fst snd] in *. rewrite background_count_app. lia.
Qed.

(** However often the effect runs again, whatever the renders, the user,
    the token and the state in between, the screen starts the initial
    [generatePractice(true)] at most once after it is mounted, and never
    again once [initialLoadRef] is set. *)
Theorem initialLoadEffect_at_most_once xs s :
  (background_count (snd (reruns E production xs s))
   <= (if initialLoadRef s then 0 else 1))%nat.
Proof.
  unfold reruns.
  pose proof (reruns_once xs (s, [])) as H. cbn [fst snd] in H.
  change (background_count []) with 0%nat in H. lia.
Qed.

(** Without a user or without a token the effect does nothing: it starts no
    call and does not use up the one attempt. *)
Theorem initialLoadEffect_requires_authentication env user token r s :
  truthy user = false \/ truthy token = false ->
  run (initialLoadEffect E production env user token r) s = (s, []).
Proof.
  intros Hauth.
  unfold run, initialLoadEffect, function_body, bind, return_, ret.
  destruct Hauth as [-> | ->]; [reflexivity | rewrite orb_true_r; reflexivity].
Qed.
End InitialLoad.

Lemma initialLoadEffect_requires_authentication_witness :
  run (PracticeScreenLoad.initialLoadEffect Samples.engine false Samples.offline
         Samples.someUser JNull UsePractice.initial) PracticeScreenLoad.mounted
  = (PracticeScreenLoad.mounted, []).
Proof.
  exact (initialLoadEffect_requires_authentication Samples.engine false Samples.offline
           Samples.someUser JNull UsePractice.initial PracticeScreenLoad.mounted
           (or_intror eq_refl)).
Defined.

(** Mounted with a user and a token, the effect run twice by the first
    render starts one call. *)
Example initialLoadEffect_runs_twice :
  let x := {| PracticeScreenLoad.world := Samples.offline;
              PracticeScreenLoad.user := Samples.someUser;
              PracticeScreenLoad.token := JStr "token";
              PracticeScreenLoad.before := UsePractice.initial;
              PracticeScreenLoad.render := UsePractice.initial |} in
  Observations.background_count
    (snd (PracticeScreenLoad.reruns Samples.engine false [x; x] PracticeScreenLoad.mounted))
  = 1%nat.
Proof. vm_compute. reflexivity. Qed.

(** ** The profile hook: the language and the half-stored profile *)

Section ProfileLanguage.
Variable E : Engine.
Variable production : bool.

(** The outcome of the token read followed by the profile request. *)
Let fetched (env : Env) : Settled JsValue :=
  match storage_getItem env Config.STORAGE_KEYS.AUTH_TOKEN with
  | Rejected e => Rejected e
  | Resolved token =>
      axios_get env (Config.API_URL production ++ "/api/user/profile")
        ("Bearer " ++ token_text token)
  end.

(** On a response that marks success, the profile is stored before the
    mother language is read.  When the data has a user, the selected
    language becomes the mother language if that is truthy and stays as it
    is otherwise, and no error is set.  When the data or its user is missing,
    the read throws after the profile has been stored: the hook then holds
    the new profile together with the error of a failed load. *)
Theorem fetchUserProfile_language env s response :
  fetched env = Resolved response ->
  nullish response = false ->
  truthy (prop response "success") = true ->
  let s' := state_after (UseProfile.fetchUserProfile E production env) s in
  let data := prop response "data" in
  let language := prop (prop data "user") "motherLanguage" in
  UseProfile.profile s' = data /\
  if nullish data || nullish (prop data "user")
  then UseProfile.error s' = Some "Failed to load profile. Please try again." /\
       UseProfile.selectedLanguage s' = UseProfile.selectedLanguage s
  else UseProfile.error s' = None /\
       UseProfile.selectedLanguage s'
       = (if truthy language then language else UseProfile.selectedLanguage s).
Proof.
  intros Hresolved Hresponse Hsuccess s' data language. subst s' data language.
  unfold fetched in Hresolved.
  destruct (storage_getItem env Config.STORAGE_KEYS.AUTH_TOKEN) as [token | e'] eqn:Htoken;
    [ | discriminate Hresolved].
  unfold state_after, run, UseProfile.fetchUserProfile, UseProfile.setLoading,
    UseProfile.setError, UseProfile.setProfile, UseProfile.setSelectedLanguage.
  unfold_effects.
  rewrite Htoken. cbv beta iota. rewrite Hresolved. cbv beta iota.
  rewrite Hresponse. cbv beta iota. rewrite Hsuccess. cbv beta iota.
  destruct (nullish (prop response "data")); cbn [orb]; cbv beta iota;
    [cbn; repeat split | ].
  destruct (nullish (prop (prop response "data") "user")); cbv beta iota;
    [cbn; repeat split | ].
  destruct (truthy (prop (prop (prop response "data") "user") "motherLanguage"));
    cbn; repeat split.
Qed.
End ProfileLanguage.

Lemma fetchUserProfile_language_witness :
  let response := Samples.ok (JObj [("progress", JObj [])]) in
  let s' :=
    state_after (UseProfile.fetchUserProfile Samples.engine false
                   (Samples.answering (Resolved response))) UseProfile.initial in
  UseProfile.profile s' = JObj [("progress", JObj [])] /\
  UseProfile.error s' = Some "Failed to load profile. Please try again.".
Proof.
  pose proof (fetchUserProfile_language Samples.engine false
                (Samples.answering (Resolved (Samples.ok (JObj [("progress", JObj [])]))))
                UseProfile.initial (Samples.ok (JObj [("progress", JObj [])]))
                eq_refl eq_refl eq_refl) as H.
  cbv zeta in H. destruct H as (Hprofile & Hrest).
  cbv zeta. split; [exact Hprofile | ].
  cbn in Hrest. destruct Hrest as (Herror & _). exact Herror.
Defined.

(** ** The profile screen: the call, the buttons and what is shown *)

Section ProfileScreenProperties.
Import ProfileScreen ProfileScreenView.
Variable E : Engine.
Variable production : bool.

(** The outcome of the read of the secure store followed by the profile
    request. *)
Let fetched (env : Env) : Settled JsValue :=
  match SecureStore_getItemAsync env Config.STORAGE_KEYS.AUTH_TOKEN with
  | Rejected e => Rejected e
  | Resolved token =>
      axios_get env (Config.API_URL production ++ "/api/user/profile")
        ("Bearer " ++ token_text token)
  end.

(** The state the screen's [fetchUserProfile] ends in, from the state [s]. *)
Lemma ProfileScreen_fetchUserProfile_state env s :
  state_after (fetchUserProfile E production env) s =
  match fetched env with
  | Rejected _ =>
      {| loading := false; profile := profile s;
         error := Some "Failed to load profile. Please try again." |}
  | Resolved response =>
      if nullish response
      then {| loading := false; profile := profile s;
              error := Some "Failed to load profile. Please try again." |}
      else if truthy (prop response "success")
           then {| loading := false; profile := prop response "data"; error := error s |}
           else {| loading := false; profile := profile s;
                   error := Some "Failed to load profile" |}
  end.
Proof.
  unfold fetched, state_after, run, fetchUserProfile, setLoading, setError, setProfile.
  unfold_effects.
  destruct (SecureStore_getItemAsync env Config.STORAGE_KEYS.AUTH_TOKEN) as [token | e];
    cbv beta iota; [ | reflexivity].
  destruct (axios_get env _ _) as [response | e]; cbv beta iota; [ | reflexivity].
  destruct (nullish response); cbv beta iota; [reflexivity | ].
  destruct (truthy (prop response "success")); reflexivity.
Qed.

(** The screen's [fetchUserProfile] never clears the error: after a
    successful call the profile is the data of the response and the error is
    the one that was there before, so an error left from an earlier failure
    stays; a response that does not mark success, a failed request and an
    unreadable response each set their message and keep the profile;
    [loading] is false in every case. *)
Theorem ProfileScreen_fetchUserProfile_keeps_error env s :
  let s' := state_after (fetchUserProfile E production env) s in
  loading s' = false /\
  match fetched env with
  | Rejected _ =>
      profile s' = profile s /\
      error s' = Some "Failed to load profile. Please try again."
  | Resolved response =>
      if nullish response
      then profile s' = profile s /\
           error s' = Some "Failed to load profile. Please try again."
      else if truthy (prop response "success")
           then profile s' = prop response "data" /\ error s' = error s
           else profile s' = profile s /\ error s' = Some "Failed to load profile"
  end.
Proof.
  intros s'. subst s'. rewrite ProfileScreen_fetchUserProfile_state.
  destruct (fetched env) as [response | e]; [ | repeat split].
  destruct (nullish response); [repeat split | ].
  destruct (truthy (prop response "success")); repeat split.
Qed.

(** The [Retry] button with nobody logged in sets [loading] and starts no
    call, so the screen shows the activity indicator from then on.  With a
    user it ends on the error of the call, on the profile when the response
    marks success with truthy data, and on "unable to load" when it marks
    success without data; never on the activity indicator. *)
Theorem onRetry_view env user s :
  let result := run (onRetry E production env user) s in
  if truthy user
  then
    view (fst result) =
    match fetched env with
    | Rejected _ => ErrorView "Failed to load profile. Please try again."
    | Resolved response =>
        if nullish response then ErrorView "Failed to load profile. Please try again."
        else if truthy (prop response "success")
             then if truthy (prop response "data")
                  then ProfileView (prop response "data")
                  else UnavailableView
             else ErrorView "Failed to load profile"
    end
  else view (fst result) = LoadingView /\ snd result = [].
Proof.
  intros result. subst result.
  unfold run, onRetry, function_body, bind, setLoading, setError, modify, ret.
  cbv beta iota.
  destruct (truthy user); [ | split; reflexivity].
  rewrite background_run. cbn [fst].
  rewrite ProfileScreen_fetchUserProfile_state.
  destruct (fetched env) as [response | e]; [ | reflexivity].
  destruct (nullish response); [reflexivity | ].
  destruct (truthy (prop response "success")); [ | reflexivity].
  unfold view. cbn.
  destruct (truthy (prop response "data")); reflexivity.
Qed.

End ProfileScreenProperties.

(** ** [generatePracticeBatch] where it is called *)

Section BatchAtCallSite.
Import UsePractice.
Variable E : Engine.
Variable production : bool.

(** [generatePracticeBatch] is not returned by the hook: its one call is the
    one in [generatePractice], made by the same render, and that call is
    reached only with a user and with [generatingBatch] false. *)
Lemma generatePractice_starts_batch_past_guard env user r s forceNew :
  background_calls (log_of (generatePractice E production env user r forceNew) s) <> [] ->
  truthy user = true /\ generatingBatch r = false.
Proof.
  intros Hstarted.
  destruct (truthy user) eqn:Huser.
  2: { exfalso. apply Hstarted.
       unfold log_of, run, generatePractice, alert, setErrorMessage, setLoading.
       unfold_effects. rewrite Huser. reflexivity. }
  split; [reflexivity | ].
  destruct (negb forceNew && (0 <? List.length (questionQueue r))%nat) eqn:Hserve.
  - apply andb_prop in Hserve. destruct Hserve as [Hforce Hlength].
    apply negb_true_iff in Hforce. subst forceNew.
    destruct (questionQueue r) as [ | q rest] eqn:Hqueue; [discriminate Hlength | ].
    unfold log_of in Hstarted.
    rewrite (generatePractice_queue_path E production env user r s q rest Huser Hqueue)
      in Hstarted.
    destruct ((List.length rest <? 2)%nat && negb (generatingBatch r)) eqn:Hlow.
    + apply andb_prop in Hlow. destruct Hlow as [_ Hidle].
      apply negb_true_iff in Hidle. exact Hidle.
    + exfalso. apply Hstarted. reflexivity.
  - exfalso. apply Hstarted.
    unfold log_of, run, generatePractice, alert, storage_getItem_call, axios_post_call,
      setErrorMessage, setFeedback, setUserAnswer, setFeedbackQuestion, setFeedbackAnswer,
      setAskingQuestion, setCurrentPractice, setQuestionQueue, setLoading.
    unfold function_body, try_catch_finally, bind, await, member, throw, return_, ret,
      modify, emit.
    rewrite Huser, Hserve. cbn [negb]. cbv beta iota.
    repeat break_match; reflexivity.
Qed.

(** C9: [generatePracticeBatch] changes no practice state other than the
    [generatingBatch] flag.  Every call of it is the one [generatePractice]
    makes, with a user and with [generatingBatch] false in the render; on
    such a call [questionQueue], [currentPractice], [feedback], [userAnswer]
    and [errorMessage] (and every other cell but the flag) are the same
    before and after, whether the request succeeds or fails, and
    [generatingBatch] is false when the call completes. *)
Theorem generatePracticeBatch_changes_only_flag env user r s :
  (forall s0 forceNew,
     background_calls (log_of (generatePractice E production env user r forceNew) s0) <> [] ->
     truthy user = true /\ generatingBatch r = false) /\
  (truthy user = true ->
   generatingBatch r = false ->
   let s' := state_after (generatePracticeBatch E production env user r) s in
   questionQueue s' = questionQueue s /\
   currentPractice s' = currentPractice s /\
   feedback s' = feedback s /\
   userAnswer s' = userAnswer s /\
   errorMessage s' = errorMessage s /\
   with_generatingBatch (generatingBatch s) s' = s /\
   generatingBatch s' = false).
Proof.
  split.
  - intros s0 forceNew. apply generatePractice_starts_batch_past_guard.
  - intros Huser Hidle s'. subst s'.
    rewrite generatePracticeBatch_state, Huser, Hidle. cbn [negb orb].
    destruct s; cbn; repeat split.
Qed.
End BatchAtCallSite.

Lemma generatePracticeBatch_changes_only_flag_witness :
  let r := Samples.queued in
  let s := UsePractice.with_generatingBatch true Samples.queued in
  let s' :=
    state_after (UsePractice.generatePracticeBatch Samples.engine false Samples.offline
                   Samples.someUser r) s in
  (truthy Samples.someUser = true /\ UsePractice.generatingBatch r = false) /\
  UsePractice.questionQueue s' = UsePractice.questionQueue s /\
  UsePractice.generatingBatch s' = false.
Proof.
  intros r s s'.
  destruct (generatePracticeBatch_changes_only_flag Samples.engine false Samples.offline
              Samples.someUser r s) as [Hsite Hframe].
  assert (Hcall : truthy Samples.someUser = true /\ UsePractice.generatingBatch r = false).
  { apply (Hsite r false). unfold log_of.
    rewrite (generatePractice_queue_path Samples.engine false Samples.offline
               Samples.someUser r r (Samples.item "q1" 2) [Samples.item "q2" 3]
               eq_refl eq_refl).
    cbn. discriminate. }
  destruct Hcall as [Huser Hidle].
  destruct (Hframe Huser Hidle) as (Hqueue & _ & _ & _ & _ & _ & Hflag).
  exact (conj (conj Huser Hidle) (conj Hqueue Hflag)).
Defined.
